(** * MolPic: a shallow embedding of the rendering glue and its properties

    The development follows the three Python modules of the package:
    - [molpic/cli.py]      the classifier, the grid parser and the batch driver,
    - [molpic/core.py]     the single-molecule and grid renderers, title injection,
    - [molpic/resolve.py]  the PubChem name resolver,
    and the classifier line of [app_streamlit.py].

    Python strings are modelled by [string]; a character is a code point
    below 256.  RDKit, Pillow, PubChemPy, pandas and the file system are the
    environment: they are represented by a record of oracles ([Env]), and
    every call the program makes to them is recorded in the world. *)

From Stdlib Require Import List String Ascii Bool Arith ZArith NArith Lia.
From Stdlib Require Import Sorting Permutation.
From Stdlib Require Import DecimalString DecimalNat DecimalN DecimalZ DecimalPos.
Import ListNotations.

Local Open Scope string_scope.
Local Open Scope bool_scope.

(* ================================================================= *)
(** ** Python string primitives *)

Module PyStr.

Definition chars (s : string) : list ascii := list_ascii_of_string s.

(** The double quote and the line feed, which the markup templates use. *)
Definition dq : string := String "034"%char EmptyString.
Definition nl : string := String "010"%char EmptyString.

(** [str.isspace] on one code point below 256: TAB..CR, FS..US, SPACE,
    NEL and NBSP. *)
Definition isspace (c : ascii) : bool :=
  let n := nat_of_ascii c in
  (((9 <=? n) && (n <=? 13)) || ((28 <=? n) && (n <=? 32))
   || (n =? 133) || (n =? 160))%nat.

Definition isdigit (c : ascii) : bool :=
  let n := nat_of_ascii c in ((48 <=? n) && (n <=? 57))%nat.

(** [c in s] for a one-character [c]. *)
Fixpoint contains_char (c : ascii) (s : string) : bool :=
  match s with
  | EmptyString => false
  | String d s' => Ascii.eqb c d || contains_char c s'
  end.

(** [any(p(c) for c in s)] and [all(p(c) for c in s)]. *)
Fixpoint any (p : ascii -> bool) (s : string) : bool :=
  match s with
  | EmptyString => false
  | String c s' => p c || any p s'
  end.

Fixpoint all (p : ascii -> bool) (s : string) : bool :=
  match s with
  | EmptyString => true
  | String c s' => p c && all p s'
  end.

Fixpoint lstrip (s : string) : string :=
  match s with
  | EmptyString => EmptyString
  | String c s' => if isspace c then lstrip s' else s
  end.

(** [rstrip] keeps a character when something that is kept follows it or
    when it is not white space. *)
Fixpoint rstrip (s : string) : string :=
  match s with
  | EmptyString => EmptyString
  | String c s' =>
      match rstrip s' with
      | EmptyString => if isspace c then EmptyString else String c EmptyString
      | r => String c r
      end
  end.

Definition strip (s : string) : string := rstrip (lstrip s).

(** [str.lower] on code points below 256: A..Z and the Latin-1 capitals. *)
Definition lower_char (c : ascii) : ascii :=
  let n := nat_of_ascii c in
  if (((65 <=? n) && (n <=? 90))
      || ((192 <=? n) && (n <=? 222) && negb (n =? 215)))%nat
  then ascii_of_nat (n + 32) else c.

Fixpoint lower (s : string) : string :=
  match s with
  | EmptyString => EmptyString
  | String c s' => String (lower_char c) (lower s')
  end.

(** [s.replace(old, new)] for a one-character [old]. *)
Fixpoint replace_char (old : ascii) (new : string) (s : string) : string :=
  match s with
  | EmptyString => EmptyString
  | String c s' =>
      if Ascii.eqb c old then new ++ replace_char old new s'
      else String c (replace_char old new s')
  end.

(** [s[:n]]. *)
Fixpoint take (n : nat) (s : string) : string :=
  match n, s with
  | S n', String c s' => String c (take n' s')
  | _, _ => EmptyString
  end.

(** [sep.join(l)]. *)
Fixpoint join (sep : string) (l : list string) : string :=
  match l with
  | [] => EmptyString
  | [x] => x
  | x :: l' => x ++ sep ++ join sep l'
  end.

(** [s.startswith(p)] returning the rest of [s]. *)
Fixpoint strip_prefix (p s : string) : option string :=
  match p, s with
  | EmptyString, _ => Some s
  | String a p', String b s' =>
      if Ascii.eqb a b then strip_prefix p' s' else None
  | String _ _, EmptyString => None
  end.

(** [s.find(p) != -1]. *)
Fixpoint has_substring (p s : string) : bool :=
  match strip_prefix p s with
  | Some _ => true
  | None =>
      match s with
      | EmptyString => false
      | String _ s' => has_substring p s'
      end
  end.

(** [s.split(c)]: the pieces between the occurrences of [c]. *)
Fixpoint split_char (c : ascii) (s : string) : list string :=
  match s with
  | EmptyString => [EmptyString]
  | String d s' =>
      if Ascii.eqb d c then EmptyString :: split_char c s'
      else match split_char c s' with
           | [] => [String d EmptyString]
           | x :: l => String d x :: l
           end
  end.

(** [s.split(c, 1)] when [c in s]: the text before the first [c] and the
    text after it. *)
Fixpoint split_once (c : ascii) (s : string) : option (string * string) :=
  match s with
  | EmptyString => None
  | String d s' =>
      if Ascii.eqb d c then Some (EmptyString, s')
      else match split_once c s' with
           | Some (a, b) => Some (String d a, b)
           | None => None
           end
  end.

(** The longest prefix of decimal digits, and what follows it. *)
Fixpoint span_digits (s : string) : string * string :=
  match s with
  | EmptyString => (EmptyString, EmptyString)
  | String c s' =>
      if isdigit c
      then let (d, r) := span_digits s' in (String c d, r)
      else (EmptyString, s)
  end.

(** [str(n)] for an integer, and [f"{n:0{w}d}"] for a non-negative one. *)
Definition of_Z (z : Z) : string := NilZero.string_of_int (Z.to_int z).
Definition of_nat (n : nat) : string := NilEmpty.string_of_uint (Nat.to_uint n).

Fixpoint zeros (n : nat) : string :=
  match n with
  | O => EmptyString
  | S n' => String "0"%char (zeros n')
  end.

Definition zfill (w : nat) (n : nat) : string :=
  let d := of_nat n in zeros (w - String.length d) ++ d.

End PyStr.

(* ================================================================= *)
(** ** The classifier ([cli.py], [app_streamlit.py]) *)

(** [smiles_chars = set("#=()[]@+\\/-0123456789")]: the Python literal
    holds one backslash. *)
Definition smiles_chars : string := "#=()[]@+\/-0123456789".

(** [_is_probably_smiles(text)]:
    [any(c in smiles_chars for c in text)]. *)
Definition _is_probably_smiles (text : string) : bool :=
  PyStr.any (fun c => PyStr.contains_char c smiles_chars) text.

(** The form's variant iterates the other way round:
    [any(c in q for c in "#=()[]@+\\/-0123456789")]. *)
Definition is_smiles (q : string) : bool :=
  PyStr.any (fun c => PyStr.contains_char c q) smiles_chars.


(* ================================================================= *)
(** ** Exceptions

    Every exception the program meets is a subclass of [Exception], so an
    [except Exception] handler catches each of them. *)

Inductive exn : Type :=
| PyException (cls msg : string)   (* an exception object: its class, [str(e)] *)
| BadParameter (msg : string)      (* [typer.BadParameter] *)
| Exit (code : Z).                 (* [typer.Exit] *)

(** [str(e)], as the handlers' f-strings print it. *)
Definition exn_str (e : exn) : string :=
  match e with
  | PyException _ msg => msg
  | BadParameter msg => msg
  | Exit _ => EmptyString
  end.

(* ================================================================= *)
(** ** Python integers as text *)

Module PyNum.

(** [int(s)] rejects a literal of more than 4300 digits (the interpreter's
    default [int_max_str_digits]). *)
Definition int_max_str_digits : nat := 4300.

Definition invalid_literal (s : string) : exn :=
  PyException "ValueError"
    ("invalid literal for int() with base 10: '" ++ s ++ "'").

(** The value of a string of decimal digits. *)
Definition digits_value (d : string) : Z :=
  match NilEmpty.uint_of_string d with
  | Some u => Z.of_N (N.of_uint u)
  | None => 0%Z
  end.

(** [int(d)] where [d] was matched by [\d+]. *)
Definition int_of_digits (d : string) : exn + Z :=
  if (int_max_str_digits <? String.length d)%nat
  then inl (PyException "ValueError"
              "Exceeds the limit (4300 digits) for integer string conversion")
  else inr (digits_value d).

(** Digits with single underscores between them, underscores removed;
    [prev] tells whether the previous character was a digit. *)
Fixpoint digits_us (prev : bool) (s : string) : option string :=
  match s with
  | EmptyString => if prev then Some EmptyString else None
  | String c s' =>
      if PyStr.isdigit c
      then option_map (String c) (digits_us true s')
      else if Ascii.eqb c "_"%char
           then (if prev then digits_us false s' else None)
           else None
  end.

(** [int(s)] for a string: surrounding white space, a sign, decimal
    digits. *)
Definition int (s : string) : exn + Z :=
  let t := PyStr.strip s in
  let '(neg, body) :=
    match t with
    | String "-"%char r => (true, r)
    | String "+"%char r => (false, r)
    | _ => (false, t)
    end in
  match digits_us false body with
  | None => inl (invalid_literal s)
  | Some d =>
      match int_of_digits d with
      | inl e => inl e
      | inr v => inr (if neg then (- v)%Z else v)
      end
  end.

End PyNum.
Export PyNum.

(* ================================================================= *)
(** ** [pathlib.PurePosixPath] *)

Module PyPath.

(** A parsed path: the root ([""], ["/"] or ["//"]) and the components. *)
Record Path : Type := mkPath { root : string; parts : list string }.

Definition is_sep (c : ascii) : bool := Ascii.eqb c "/"%char.

Fixpoint lstrip_sep (s : string) : string :=
  match s with
  | String c s' => if is_sep c then lstrip_sep s' else s
  | EmptyString => s
  end.

(** [splitroot]: exactly two leading slashes are kept as the root ["//"]. *)
Definition splitroot (s : string) : string * string :=
  match s with
  | String c _ =>
      if is_sep c then
        let rel := lstrip_sep s in
        if (String.length s - String.length rel =? 2)%nat
        then ("//", rel) else ("/", rel)
      else (EmptyString, s)
  | EmptyString => (EmptyString, s)
  end.

Definition keep_part (x : string) : bool :=
  negb (String.eqb x EmptyString) && negb (String.eqb x ".").

(** [Path(s)]. *)
Definition parse (s : string) : Path :=
  let (r, rel) := splitroot s in
  mkPath r (filter keep_part (PyStr.split_char "/" rel)).

(** [str(p)]. *)
Definition to_str (p : Path) : string :=
  match root p, parts p with
  | EmptyString, [] => "."
  | r, l => r ++ PyStr.join "/" l
  end.

(** [p.parent]. *)
Definition parent (p : Path) : Path :=
  mkPath (root p) (removelast (parts p)).

(** [p.name]. *)
Definition name (p : Path) : string := last (parts p) EmptyString.

(** The text before the last ['.'] of [s] and the text from it on. *)
Fixpoint rsplit_dot (s : string) : option (string * string) :=
  match s with
  | EmptyString => None
  | String c s' =>
      match rsplit_dot s' with
      | Some (a, b) => Some (String c a, b)
      | None => if Ascii.eqb c "."%char then Some (EmptyString, s) else None
      end
  end.

(** [p.suffix]: [i = name.rfind('.')], kept when [0 < i < len(name) - 1]. *)
Definition suffix_of_name (n : string) : string :=
  match rsplit_dot n with
  | Some (a, b) =>
      if negb (String.eqb a EmptyString) && (1 <? String.length b)%nat
      then b else EmptyString
  | None => EmptyString
  end.

Definition suffix (p : Path) : string := suffix_of_name (name p).

(** [p / key]: an absolute [key] replaces [p]. *)
Definition joinpath (p : Path) (key : string) : Path :=
  let q := parse key in
  match root q with
  | EmptyString => mkPath (root p) (parts p ++ parts q)
  | _ => q
  end.

End PyPath.
Import PyPath.


(* ================================================================= *)
(** ** The environment and the world *)

(** Handles of the toolkit's objects: an RDKit molecule, a Pillow image. *)
Inductive Mol : Type := mol_handle (id : N).
Inductive Image : Type := image_handle (id : N).

(** The options [render_molecule] sets on the SVG drawer; [padding] is in
    hundredths (0.05 is 5). *)
Record DrawOptions : Type := mkDrawOptions {
  clearBackground : bool;
  baseFontSize : Z;
  bondLineWidth : Z;
  addStereoAnnotation : bool;
  padding_percent : Z
}.

(** A PubChemPy compound: [getattr(c, field, None)] for the three fields
    the resolver reads. *)
Record Compound : Type := mkCompound {
  canonical_smiles : option string;
  isomeric_smiles : option string;
  cid : option Z
}.

(** A value stored in a report row. *)
Inductive PyVal : Type :=
| VInt (z : Z)
| VStr (s : string)
| VBool (b : bool)
| VNone.

(** A [dict] with string keys, in insertion order. *)
Definition Dict : Type := list (string * PyVal).

(** What the program asks of the file system. *)
Inductive FsOp : Type :=
| Mkdir (path : string)
    (* [Path.mkdir(parents=True, exist_ok=True)] *)
| WriteText (path : string) (text : string)
    (* [Path.write_text(text, encoding="utf-8")] *)
| SaveImage (path : string) (img : Image) (dpi : option (Z * Z))
    (* [Image.save(path)] and [Image.save(path, dpi=dpi)] *)
| ToCsv (path : string) (rows : list Dict).
    (* [pd.DataFrame(rows).to_csv(path, index=False)] *)

(** An operation with its outcome: [None] when it returned, [Some e] when
    it raised [e]. *)
Record FsEvent : Type := mkFsEvent { fs_op : FsOp; fs_exn : option exn }.

(** The calls into RDKit and PubChemPy, in the order they are made. *)
Inductive TkCall : Type :=
| CallMolFromSmiles (smiles : string)
| CallCompute2DCoords (mol : Mol)
| CallRemoveHs (mol : Mol)
| CallMolToImage (mol : Mol) (size : Z * Z) (legend : string)
| CallMolDraw2DSVG (size : Z * Z) (opts : DrawOptions) (mol : Mol)
    (legend : string)
| CallMolsToGridImage (mols : list (option Mol)) (molsPerRow : Z)
    (subImgSize : Z * Z) (legends : list string) (useSVG : bool)
| CallGetCompounds (query namespace : string).

Record World : Type := mkWorld {
  fs_log : list FsEvent;
  tk_log : list TkCall
}.

(** The environment: what the libraries answer.  A library call that the
    program guards with [try] may answer with an exception; the file
    system may refuse any operation, depending on what happened before. *)
Record Env : Type := mkEnv {
  (* RDKit *)
  MolFromSmiles : string -> option Mol;
  Compute2DCoords : Mol -> Mol;
  RemoveHs : Mol -> exn + Mol;
  MolToImage : Mol -> Z * Z -> string -> exn + Image;
  MolDraw2DSVG : Z * Z -> DrawOptions -> Mol -> string -> exn + string;
  MolsToGridImage_png :
    list (option Mol) -> Z -> Z * Z -> list string -> exn + Image;
  MolsToGridImage_svg :
    list (option Mol) -> Z -> Z * Z -> list string -> exn + string;
  (* PubChemPy *)
  get_compounds : string -> string -> exn + list Compound;
  (* the file system *)
  fs_fault : list FsEvent -> FsOp -> option exn;
  (* float formatting outside the range modelled exactly *)
  float_half_repr : Z -> exn + string;
  float_mul065_repr : Z -> exn + string
}.

(** *** The monad of the program: world passing with exceptions *)

Definition M (A : Type) : Type := World -> World * (exn + A).

Definition ret {A} (a : A) : M A := fun w => (w, inr a).

Definition raise {A} (e : exn) : M A := fun w => (w, inl e).

Definition bind {A B} (m : M A) (k : A -> M B) : M B :=
  fun w =>
    match m w with
    | (w', inr a) => k a w'
    | (w', inl e) => (w', inl e)
    end.

(** [try: m  except Exception as e: h e]. *)
Definition try_except {A} (m : M A) (h : exn -> M A) : M A :=
  fun w =>
    match m w with
    | (w', inr a) => (w', inr a)
    | (w', inl e) => h e w'
    end.

Definition lift {A} (r : exn + A) : M A := fun w => (w, r).

Declare Scope py_scope.
Delimit Scope py_scope with py.
Notation "x <- m ;; k" := (bind m (fun x => k))
  (at level 100, m at next level, right associativity) : py_scope.
Notation "m ;; k" := (bind m (fun _ => k))
  (at level 100, right associativity) : py_scope.
Local Open Scope py_scope.

(** A call into a library is logged. *)
Definition tk_call (c : TkCall) : M unit :=
  fun w => (mkWorld (fs_log w) (tk_log w ++ [c])%list, inr tt).

(** A file-system operation is logged with its outcome. *)
Definition fs_do (env : Env) (op : FsOp) : M unit :=
  fun w =>
    let r := fs_fault env (fs_log w) op in
    (mkWorld (fs_log w ++ [mkFsEvent op r])%list (tk_log w),
     match r with Some e => inl e | None => inr tt end).

(* ================================================================= *)
(** ** [molpic/core.py] *)

(** [RenderResult]; its field [smiles] is [rr_smiles] here, the name
    [smiles] being taken by [ResolveResult]. *)
Record RenderResult : Type := mkRenderResult {
  rr_smiles : option string;
  out_path : option string;
  ok : bool;
  message : string
}.

(** [_mol_from_smiles(smiles, no_h)]. *)
Definition _mol_from_smiles (env : Env) (smiles : string) (no_h : bool)
  : M (option Mol) :=
  tk_call (CallMolFromSmiles smiles) ;;
  match MolFromSmiles env smiles with
  | None => ret None
  | Some mol =>
      tk_call (CallCompute2DCoords mol) ;;
      let mol := Compute2DCoords env mol in
      if no_h then
        try_except
          (tk_call (CallRemoveHs mol) ;;
           mol' <- lift (RemoveHs env mol) ;;
           ret (Some mol'))
          (fun _ => ret (Some mol))
      else ret (Some mol)
  end.

Definition image_suffixes : list string := [".png"; ".svg"].

Definition suffix_in (suffix : string) (l : list string) : bool :=
  existsb (String.eqb suffix) l.
Arguments suffix_in : simpl never.

(** [img.save(path, dpi=(d, d))], and [img.save(path)] when that raises. *)
Definition save_with_dpi (env : Env) (path : string) (img : Image)
  (png_dpi : Z) : M unit :=
  try_except
    (fs_do env (SaveImage path img (Some (png_dpi, png_dpi))))
    (fun _ => fs_do env (SaveImage path img None)).

(** [render_molecule(smiles, out, size, legend, transparent, no_h, png_dpi)]. *)
Definition render_molecule (env : Env) (smiles out : string) (size : Z * Z)
  (legend : string) (transparent no_h : bool) (png_dpi : Z)
  : M RenderResult :=
  let s := PyStr.strip smiles in
  if String.eqb s EmptyString
  then ret (mkRenderResult None None false "Empty SMILES provided.")
  else
    mol <- _mol_from_smiles env s no_h ;;
    match mol with
    | None =>
        ret (mkRenderResult (Some s) None false
               "RDKit could not parse the SMILES.")
    | Some mol =>
        let out_path := parse out in
        fs_do env (Mkdir (to_str (parent out_path))) ;;
        let suffix := PyStr.lower (suffix out_path) in
        if negb (suffix_in suffix image_suffixes)
        then ret (mkRenderResult (Some s) None false
                    "Output must end with .png or .svg")
        else
          try_except
            ((if String.eqb suffix ".png" then
                tk_call (CallMolToImage mol size legend) ;;
                img <- lift (MolToImage env mol size legend) ;;
                save_with_dpi env (to_str out_path) img png_dpi
              else
                let opts := mkDrawOptions transparent 18 2 true 5 in
                tk_call (CallMolDraw2DSVG size opts mol legend) ;;
                svg <- lift (MolDraw2DSVG env size opts mol legend) ;;
                fs_do env (WriteText (to_str out_path) svg)) ;;
             ret (mkRenderResult (Some s) (Some (to_str out_path)) true "OK"))
            (fun e =>
               ret (mkRenderResult (Some s) None false
                      ("Render error: " ++ exn_str e)))
    end.

(** *** The three regular expressions of [_inject_svg_title] *)

Module Re.

(** [re.match(key + r'="(\d+)(px)?"', s)], group 1: the attribute text
    starts [s].  [\d+] is greedy and what follows it cannot start with a
    digit, so group 1 is the whole run of digits. *)
Definition match_dim (key : string) (s : string) : option string :=
  match PyStr.strip_prefix (key ++ "=" ++ PyStr.dq) s with
  | None => None
  | Some rest =>
      let (d, rest') := PyStr.span_digits rest in
      if String.eqb d EmptyString then None
      else
        let after_px :=
          match PyStr.strip_prefix "px" rest' with
          | Some r => r
          | None => rest'
          end in
        match after_px with
        | String "034"%char _ => Some d
        | _ => None
        end
  end.

(** [re.search(key + r'="(\d+)(px)?"', s)], group 1 of the leftmost
    match. *)
Fixpoint search_dim (key : string) (s : string) : option string :=
  match match_dim key s with
  | Some d => Some d
  | None =>
      match s with
      | EmptyString => None
      | String _ s' => search_dim key s'
      end
  end.

(** The text from the first ['>'] of [s] on, with the character before
    it. *)
Fixpoint upto_gt (prev : option ascii) (s : string)
  : option (option ascii * string) :=
  match s with
  | EmptyString => None
  | String c s' =>
      if Ascii.eqb c ">"%char then Some (prev, s') else upto_gt (Some c) s'
  end.

(** [re.sub(r"^\s*<\?xml[^>]*\?>\s*", "", s)]: [^] anchors the only
    possible match at the start; [[^>]*] stops at the first ['>'], which
    has to follow a ['?']. *)
Definition sub_xml_decl (s : string) : string :=
  match PyStr.strip_prefix "<?xml" (PyStr.lstrip s) with
  | None => s
  | Some rest =>
      match upto_gt None rest with
      | Some (Some "?"%char, tail) => PyStr.lstrip tail
      | _ => s
      end
  end.

(** [re.sub(r"^\s*<!DOCTYPE[^>]*>\s*", "", s)]. *)
Definition sub_doctype (s : string) : string :=
  match PyStr.strip_prefix "<!DOCTYPE" (PyStr.lstrip s) with
  | None => s
  | Some rest =>
      match upto_gt None rest with
      | Some (_, tail) => PyStr.lstrip tail
      | None => s
      end
  end.

End Re.

(** [f"{w/2}"] for an integer [w]: exact below 2^53, where the quotient
    is an integer or a half; the environment answers beyond. *)
Definition repr_half (env : Env) (w : Z) : exn + string :=
  if ((0 <=? w) && (w <? 2 ^ 53))%Z
  then inr (PyStr.of_Z (w / 2) ++ (if Z.even w then ".0" else ".5"))
  else float_half_repr env w.

(** [f"{extra_top_px*0.65}"]: 45.5 for the margin of 70 the callers use;
    the environment answers for another margin. *)
Definition repr_mul065 (env : Env) (extra_top_px : Z) : exn + string :=
  if (extra_top_px =? 70)%Z then inr "45.5"
  else float_mul065_repr env extra_top_px.

(** [if m: v = int(m.group(1))], with [v] preset to [default]. *)
Definition dim_or (m : option string) (default : Z) : exn + Z :=
  match m with
  | Some g1 => PyNum.int_of_digits g1
  | None => inr default
  end.

Definition ebind {A B} (r : exn + A) (k : A -> exn + B) : exn + B :=
  match r with
  | inl e => inl e
  | inr a => k a
  end.

(** The f-string of [_inject_svg_title]. *)
Definition wrapped_svg (w new_h : Z) (x y title : string)
  (extra_top_px : Z) (inner : string) : string :=
  "<svg xmlns=" ++ PyStr.dq ++ "http://www.w3.org/2000/svg" ++ PyStr.dq
  ++ " width=" ++ PyStr.dq ++ PyStr.of_Z w ++ PyStr.dq
  ++ " height=" ++ PyStr.dq ++ PyStr.of_Z new_h ++ PyStr.dq
  ++ " viewBox=" ++ PyStr.dq ++ "0 0 " ++ PyStr.of_Z w ++ " "
  ++ PyStr.of_Z new_h ++ PyStr.dq ++ ">" ++ PyStr.nl
  ++ "  <text x=" ++ PyStr.dq ++ x ++ PyStr.dq
  ++ " y=" ++ PyStr.dq ++ y ++ PyStr.dq
  ++ " text-anchor=" ++ PyStr.dq ++ "middle" ++ PyStr.dq
  ++ " font-size=" ++ PyStr.dq ++ "28" ++ PyStr.dq
  ++ " font-family=" ++ PyStr.dq ++ "Arial" ++ PyStr.dq ++ ">"
  ++ title ++ "</text>" ++ PyStr.nl
  ++ "  <g transform=" ++ PyStr.dq ++ "translate(0,"
  ++ PyStr.of_Z extra_top_px ++ ")" ++ PyStr.dq ++ ">" ++ PyStr.nl
  ++ "    " ++ inner ++ PyStr.nl
  ++ "  </g>" ++ PyStr.nl
  ++ "</svg>" ++ PyStr.nl.

(** [_inject_svg_title(svg, title, extra_top_px=70)]. *)
Definition _inject_svg_title (env : Env) (svg title : string)
  (extra_top_px : Z) : exn + string :=
  if String.eqb (PyStr.strip title) EmptyString then inr svg
  else if negb (PyStr.has_substring "<svg" svg) then inr svg
  else
    let m_w := Re.search_dim "width" svg in
    let m_h := Re.search_dim "height" svg in
    ebind (dim_or m_w 1500) (fun w =>
    ebind (dim_or m_h 1000) (fun h =>
    let new_h := (h + extra_top_px)%Z in
    let inner := Re.sub_doctype (Re.sub_xml_decl svg) in
    ebind (repr_half env w) (fun x =>
    ebind (repr_mul065 env extra_top_px) (fun y =>
    inr (wrapped_svg w new_h x y title extra_top_px inner))))).

Arguments _inject_svg_title : simpl never.

(** [legends or [""] * len(smiles_list)]. *)
Definition used_legends (legends : option (list string))
  (smiles_list : list string) : list string :=
  match legends with
  | None | Some [] => repeat EmptyString (List.length smiles_list)
  | Some l => l
  end.

(** The loop of [render_grid] that fills [mols]. *)
Fixpoint grid_mols (env : Env) (smiles_list : list string) (no_h : bool)
  : M (list (option Mol)) :=
  match smiles_list with
  | [] => ret []
  | s :: rest =>
      let ss := PyStr.strip s in
      if String.eqb ss EmptyString
      then mols <- grid_mols env rest no_h ;; ret (None :: mols)
      else
        mol <- _mol_from_smiles env ss no_h ;;
        mols <- grid_mols env rest no_h ;;
        ret (mol :: mols)
  end.

(** [render_grid(smiles_list, out, legends, grid, sub_img_size,
    transparent, no_h, png_dpi, title)]. *)
Definition render_grid (env : Env) (smiles_list : list string) (out : string)
  (legends : option (list string)) (grid : Z * Z) (sub_img_size : Z * Z)
  (transparent no_h : bool) (png_dpi : Z) (title : string)
  : M RenderResult :=
  match smiles_list with
  | [] =>
      ret (mkRenderResult None None false
             "No molecules provided for grid rendering.")
  | _ =>
      let used := used_legends legends smiles_list in
      mols <- grid_mols env smiles_list no_h ;;
      let '(rows, cols) := grid in
      let out_path := parse out in
      fs_do env (Mkdir (to_str (parent out_path))) ;;
      let suffix := PyStr.lower (suffix out_path) in
      if negb (suffix_in suffix image_suffixes)
      then ret (mkRenderResult None None false
                  "Grid output must end with .png or .svg")
      else
        try_except
          (if String.eqb suffix ".png" then
             tk_call (CallMolsToGridImage mols cols sub_img_size used false) ;;
             img <- lift (MolsToGridImage_png env mols cols sub_img_size used) ;;
             save_with_dpi env (to_str out_path) img png_dpi ;;
             ret (mkRenderResult (Some "GRID") (Some (to_str out_path))
                    true "OK")
           else
             tk_call (CallMolsToGridImage mols cols sub_img_size used true) ;;
             svg <- lift (MolsToGridImage_svg env mols cols sub_img_size used) ;;
             (if negb transparent then ret tt else ret tt) ;;
             svg <- lift (_inject_svg_title env svg (PyStr.strip title) 70) ;;
             fs_do env (WriteText (to_str out_path) svg) ;;
             ret (mkRenderResult (Some "GRID") (Some (to_str out_path))
                    true "OK"))
          (fun e =>
             ret (mkRenderResult (Some "GRID") None false
                    ("Grid render error: " ++ exn_str e)))
  end.

(* ================================================================= *)
(** ** [molpic/resolve.py] *)

(** [ResolveResult]; its field [message] is [res_message] here. *)
Record ResolveResult : Type := mkResolveResult {
  query : string;
  smiles : option string;
  source : string;
  pubchem_cid : option Z;
  res_message : string
}.

(** [a or b] on optional strings: the empty string is false. *)
Definition str_or (a b : option string) : option string :=
  match a with
  | Some (String _ _) => a
  | _ => b
  end.

(** [pcp.get_compounds(q, namespace=ns, as_dataframe=False)]. *)
Definition pcp_get_compounds (env : Env) (q ns : string)
  : M (list Compound) :=
  tk_call (CallGetCompounds q ns) ;;
  lift (get_compounds env q ns).

(** [resolve_name_to_smiles(name)]. *)
Definition resolve_name_to_smiles (env : Env) (name : string)
  : M ResolveResult :=
  let q := PyStr.strip name in
  if String.eqb q EmptyString
  then ret (mkResolveResult name None "none" None "Empty name provided.")
  else
    try_except
      (compounds <- pcp_get_compounds env q "name" ;;
       compounds <- match compounds with
                    | [] => pcp_get_compounds env q "query"
                    | _ => ret compounds
                    end ;;
       match compounds with
       | [] =>
           ret (mkResolveResult q None "pubchem" None
                  "No PubChem match found.")
       | c :: _ =>
           let smiles := str_or (canonical_smiles c) (isomeric_smiles c) in
           let cid := cid c in
           match smiles with
           | Some (String _ _) =>
               ret (mkResolveResult q smiles "pubchem" cid "OK")
           | _ =>
               ret (mkResolveResult q None "pubchem" cid
                      "Matched PubChem entry but no SMILES returned.")
           end
       end)
      (fun e =>
         ret (mkResolveResult q None "pubchem" None
                ("PubChem resolution error: " ++ exn_str e))).

(* ================================================================= *)
(** ** [molpic/cli.py]: the grid parser, captions and the batch driver *)

(** [_to_smiles(query)]: a query the classifier accepts is taken as it
    is; any other is resolved by name. *)
Definition _to_smiles (env : Env) (query : string)
  : M (string * string * option Z) :=
  let q := PyStr.strip query in
  if _is_probably_smiles q then ret (q, "input", None)
  else
    rr <- resolve_name_to_smiles env q ;;
    match smiles rr with
    | Some (String c r) => ret (String c r, source rr, pubchem_cid rr)
    | _ => raise (PyException "ValueError" (res_message rr))
    end.

(** [_parse_grid(g)]. *)
Definition _parse_grid (g : string) : exn + (Z * Z) :=
  let s := PyStr.replace_char " "%char EmptyString (PyStr.lower g) in
  match PyStr.split_once "x"%char s with
  | None => inl (BadParameter "Grid must be like 2x3")
  | Some (a, b) =>
      ebind (PyNum.int a) (fun r =>
      ebind (PyNum.int b) (fun c =>
      if ((r <=? 0) || (c <=? 0))%Z
      then inl (BadParameter "Grid rows/cols must be positive.")
      else inr (r, c)))
  end.

(** [[f"{i+1}) {name}" for i, name in enumerate(legends)]], counting
    from [i]. *)
Fixpoint caption_items (i : nat) (legends : list string) : list string :=
  match legends with
  | [] => []
  | name :: rest =>
      (PyStr.of_nat (i + 1) ++ ") " ++ name) :: caption_items (S i) rest
  end.

Definition caption_text (title : string) (legends : list string) : string :=
  let items := PyStr.join "; " (caption_items 0 legends) in
  if String.eqb (PyStr.strip title) EmptyString
  then "Compounds: " ++ items ++ PyStr.nl
  else PyStr.strip title ++ PyStr.nl ++ "Compounds: " ++ items ++ PyStr.nl.

(** [_write_caption(path, title, legends)]. *)
Definition _write_caption (env : Env) (path title : string)
  (legends : list string) : M unit :=
  let p := parse path in
  fs_do env (Mkdir (to_str (parent p))) ;;
  fs_do env (WriteText (to_str p) (caption_text title legends)).

(** The table [pd.read_csv] returned: its column names and, for each row,
    [str(cell)] by column.  The rows are indexed from 0, as [read_csv]
    numbers them. *)
Record DataFrame : Type := mkDataFrame {
  columns : list string;
  df_rows : list (list (string * string))
}.

(** [str(row.get(col, ""))]. *)
Fixpoint row_get (row : list (string * string)) (col : string) : string :=
  match row with
  | [] => EmptyString
  | (k, v) :: rest => if String.eqb k col then v else row_get rest col
  end.

(** An item of [rendered_items]: [(legend, smiles, out_file)]. *)
Definition Item : Type := (string * string * string)%type.
Definition item_legend (x : Item) : string := fst (fst x).
Definition item_smiles (x : Item) : string := snd (fst x).

Definition nonempty (s : string) : bool := negb (String.eqb s EmptyString).

(** The body of the row loop of [batch], for row [i] of the table; it
    returns the entry appended to [report_rows] and, when the row was
    rendered, the item appended to [rendered_items]. *)
Definition batch_row (env : Env) (smiles_col name_col : string)
  (has_smiles has_name : bool) (outp : Path) (fmt : string) (no_h : bool)
  (i : nat) (row : list (string * string)) : M (Dict * option Item) :=
  let raw_smiles :=
    if has_smiles then PyStr.strip (row_get row smiles_col)
    else EmptyString in
  let raw_name :=
    if has_name then PyStr.strip (row_get row name_col) else EmptyString in
  let query := if nonempty raw_smiles then raw_smiles else raw_name in
  if negb (nonempty query)
  then ret ([("row", VInt (Z.of_nat i)); ("ok", VBool false);
             ("message", VStr "empty")], None)
  else
    resolved <-
      (if nonempty raw_smiles
       then ret (inr (raw_smiles, "input_smiles", None))
       else
         rr <- resolve_name_to_smiles env raw_name ;;
         match smiles rr with
         | Some (String c r) =>
             ret (inr (String c r, source rr, pubchem_cid rr))
         | _ => ret (inl (res_message rr))
         end) ;;
    match resolved with
    | inl msg =>
        ret ([("row", VInt (Z.of_nat i)); ("ok", VBool false);
              ("message", VStr msg)], None)
    | inr (smiles, source, cid) =>
        let legend := if nonempty raw_name then raw_name else query in
        let safe_label :=
          PyStr.take 80
            (PyStr.replace_char "/"%char "_"
               (PyStr.replace_char " "%char "_" legend)) in
        let out_file :=
          joinpath outp
            (PyStr.zfill 4 i ++ "_" ++ safe_label ++ "." ++ fmt) in
        rr2 <- render_molecule env smiles (to_str out_file) (900, 700)%Z
                 legend true no_h 300 ;;
        ret ([("row", VInt (Z.of_nat i)); ("query", VStr query);
              ("legend", VStr legend); ("ok", VBool (ok rr2));
              ("out", match out_path rr2 with
                      | Some p => VStr p
                      | None => VNone
                      end);
              ("source", VStr source);
              ("cid", match cid with Some z => VInt z | None => VNone end);
              ("message", VStr (message rr2))],
             if ok rr2 then Some (legend, smiles, to_str out_file) else None)
    end.

(** [for i, row in df.iterrows(): ...], from row index [i] on, with the
    two lists the loop appends to. *)
Fixpoint batch_rows (env : Env) (smiles_col name_col : string)
  (has_smiles has_name : bool) (outp : Path) (fmt : string) (no_h : bool)
  (i : nat) (rows : list (list (string * string)))
  (report_rows : list Dict) (rendered_items : list Item)
  : M (list Dict * list Item) :=
  match rows with
  | [] => ret (report_rows, rendered_items)
  | row :: rest =>
      r <- batch_row env smiles_col name_col has_smiles has_name outp fmt
             no_h i row ;;
      let '(entry, item) := r in
      batch_rows env smiles_col name_col has_smiles has_name outp fmt no_h
        (S i) rest (report_rows ++ [entry])%list
        (match item with
         | Some x => (rendered_items ++ [x])%list
         | None => rendered_items
         end)
  end.

(** [items.sort(key=lambda x: x[0].lower())]: a stable sort on the
    lower-cased legend, strings compared by code point. *)
Fixpoint insert_by_name (x : Item) (l : list Item) : list Item :=
  match l with
  | [] => [x]
  | y :: l' =>
      if String.leb (PyStr.lower (item_legend x)) (PyStr.lower (item_legend y))
      then x :: l
      else y :: insert_by_name x l'
  end.

Definition sort_by_name (l : list Item) : list Item :=
  fold_right insert_by_name [] l.

(** [range(start, stop, step)] for a positive [step], unrolled at most
    [fuel] times. *)
Fixpoint range_from (fuel start stop step : nat) : list nat :=
  match fuel with
  | O => []
  | S fuel' =>
      if (start <? stop)%nat
      then start :: range_from fuel' (start + step) stop step
      else []
  end.

(** [range(0, stop, step)]: [stop] steps are enough. *)
Definition range_step (stop step : nat) : list nat :=
  range_from stop 0 stop step.

(** [items[start:start + capacity]]. *)
Definition slice (items : list Item) (start capacity : nat) : list Item :=
  firstn capacity (skipn start items).

(** The body of the panel loop, for the panel numbered [panel_index]. *)
Definition batch_panel (env : Env) (outp : Path) (fmt : string) (no_h : bool)
  (rows cols : Z) (panel_title_prefix : string) (captions : bool)
  (panel_index : nat) (chunk : list Item) : M unit :=
  let legends := map item_legend chunk in
  let smiles_list := map item_smiles chunk in
  let panel_out :=
    joinpath outp ("panel_" ++ PyStr.zfill 3 panel_index ++ "." ++ fmt) in
  let title := panel_title_prefix ++ " " ++ PyStr.zfill 3 panel_index in
  render_grid env smiles_list (to_str panel_out) (Some legends) (rows, cols)
    (550, 450)%Z true no_h 300 title ;;
  if captions
  then _write_caption env
         (to_str (joinpath outp
                    ("panel_" ++ PyStr.zfill 3 panel_index ++ "_caption.txt")))
         title legends
  else ret tt.

(** [for start in range(0, len(items), capacity): ...], over the starts
    left, with the running [panel_index]. *)
Fixpoint batch_panel_loop (env : Env) (outp : Path) (fmt : string)
  (no_h : bool) (rows cols : Z) (panel_title_prefix : string)
  (captions : bool) (items : list Item) (capacity : nat)
  (starts : list nat) (panel_index : nat) : M unit :=
  match starts with
  | [] => ret tt
  | start :: rest =>
      batch_panel env outp fmt no_h rows cols panel_title_prefix captions
        panel_index (slice items start capacity) ;;
      batch_panel_loop env outp fmt no_h rows cols panel_title_prefix
        captions items capacity rest (panel_index + 1)
  end.

(** The panel stage of [batch]: [if make_panels and rendered_items: ...]. *)
Definition batch_panels (env : Env) (outp : Path) (fmt : string)
  (no_h make_panels : bool) (rows cols : Z) (panel_title_prefix : string)
  (captions : bool) (order_by : string) (rendered_items : list Item)
  : M unit :=
  match make_panels, rendered_items with
  | true, _ :: _ =>
      let items :=
        if String.eqb (PyStr.lower order_by) "name"
        then sort_by_name rendered_items else rendered_items in
      let capacity := Z.to_nat (rows * cols) in
      batch_panel_loop env outp fmt no_h rows cols panel_title_prefix
        captions items capacity (range_step (List.length items) capacity) 1
  | _, _ => ret tt
  end.

Definition col_in (c : string) (cols : list string) : bool :=
  existsb (String.eqb c) cols.

(** [batch(input_file, ...)], from the table read on; what the command
    prints is left out. *)
Definition batch (env : Env) (df : DataFrame) (smiles_col name_col : string)
  (out_dir fmt : string) (no_h make_panels : bool)
  (panel_grid panel_title_prefix : string) (captions : bool)
  (order_by : string) : M unit :=
  let outp := parse out_dir in
  fs_do env (Mkdir (to_str outp)) ;;
  let has_smiles := col_in smiles_col (columns df) in
  let has_name := col_in name_col (columns df) in
  if negb has_smiles && negb has_name then raise (Exit 2)
  else
    g <- lift (_parse_grid panel_grid) ;;
    let '(rows, cols) := g in
    r <- batch_rows env smiles_col name_col has_smiles has_name outp fmt
           no_h 0 (df_rows df) [] [] ;;
    let '(report_rows, rendered_items) := r in
    fs_do env (ToCsv (to_str (joinpath outp "molpic_report.csv"))
                 report_rows) ;;
    batch_panels env outp fmt no_h make_panels rows cols panel_title_prefix
      captions order_by rendered_items.

(* ================================================================= *)
(** ** Facts about the string primitives *)

Section StringFacts.

Lemma any_exists (p : ascii -> bool) (s : string) :
  PyStr.any p s = true <-> exists c, In c (PyStr.chars s) /\ p c = true.
Proof.
  induction s as [|a s IH]; simpl.
  - split; [discriminate | intros (c & [] & _)].
  - rewrite orb_true_iff, IH. split.
    + intros [Ha | (c & Hc & Hp)]; [exists a | exists c]; auto.
    + intros (c & [<- | Hc] & Hp); [left | right; exists c]; auto.
Qed.

Lemma contains_char_In (c : ascii) (s : string) :
  PyStr.contains_char c s = true <-> In c (PyStr.chars s).
Proof.
  induction s as [|a s IH]; simpl.
  - split; [discriminate | tauto].
  - rewrite orb_true_iff, IH, Ascii.eqb_eq. split; intros [H | H]; auto.
Qed.

(** A string is blank when it is empty or holds white space only. *)
Definition is_blank (s : string) : bool := PyStr.all PyStr.isspace s.

Lemma lstrip_blank (s : string) :
  is_blank s = true -> PyStr.lstrip s = EmptyString.
Proof.
  unfold is_blank. induction s as [|a s IH]; simpl; auto.
  rewrite andb_true_iff. intros [Ha Hs]. now rewrite Ha, IH.
Qed.

Lemma rstrip_blank (s : string) :
  is_blank s = true -> PyStr.rstrip s = EmptyString.
Proof.
  unfold is_blank. induction s as [|a s IH]; simpl; auto.
  rewrite andb_true_iff. intros [Ha Hs]. now rewrite IH, Ha.
Qed.

Lemma rstrip_empty_blank (s : string) :
  PyStr.rstrip s = EmptyString -> is_blank s = true.
Proof.
  unfold is_blank. induction s as [|a s IH]; simpl; auto.
  destruct (PyStr.rstrip s) eqn:E.
  - destruct (PyStr.isspace a); [intros _; auto | discriminate].
  - discriminate.
Qed.

Lemma strip_blank (s : string) :
  PyStr.strip s = EmptyString <-> is_blank s = true.
Proof.
  unfold PyStr.strip. split.
  - intros H. apply rstrip_empty_blank in H. revert H. unfold is_blank.
    induction s as [|a s IH]; simpl; auto.
    destruct (PyStr.isspace a) eqn:Ea; simpl.
    + auto.
    + rewrite Ea. discriminate.
  - intros H. now rewrite (lstrip_blank s H).
Qed.

End StringFacts.

(* ================================================================= *)
(** ** The classifier *)

(** The characters the classifier looks for, one by one. *)
Definition structural_chars : list ascii :=
  ["#"; "="; "("; ")"; "["; "]"; "@"; "+"; "\"; "/"; "-";
   "0"; "1"; "2"; "3"; "4"; "5"; "6"; "7"; "8"; "9"]%char.

(** C1.  The classifier answers true exactly when its input holds one of
    the twenty-one structural characters (so it answers true on every
    string that holds one, whatever its chemistry, and false on every
    string that holds none); the web form's test is the same function. *)
Theorem is_probably_smiles_iff (text : string) :
  (_is_probably_smiles text = true <->
   exists c, In c (PyStr.chars text) /\ In c structural_chars)
  /\ (_is_probably_smiles text = false <->
      forall c, In c (PyStr.chars text) -> ~ In c structural_chars)
  /\ is_smiles text = _is_probably_smiles text.
Proof.
  assert (Hiff : _is_probably_smiles text = true <->
                 exists c, In c (PyStr.chars text) /\ In c structural_chars).
  { unfold _is_probably_smiles. rewrite any_exists.
    split; intros (c & Hc & Hs); exists c; split; auto;
      apply (contains_char_In c smiles_chars); exact Hs. }
  split; [exact Hiff |]. split.
  - rewrite <- not_true_iff_false, Hiff. split.
    + intros H c Hc Hs. apply H. now exists c.
    + intros H (c & Hc & Hs). exact (H c Hc Hs).
  - apply eq_true_iff_eq. rewrite Hiff. unfold is_smiles.
    rewrite any_exists. split.
    + intros (c & Hs & Hc). exists c. split.
      * now apply contains_char_In.
      * exact Hs.
    + intros (c & Hc & Hs). exists c. split.
      * exact Hs.
      * now apply contains_char_In.
Qed.

(* ================================================================= *)
(** ** Running the monad *)

Ltac run :=
  unfold bind, ret, raise, lift, try_except, tk_call, fs_do; simpl.

(** Case analysis on the innermost scrutinee of the goal. *)
Ltac break_match :=
  match goal with
  | |- context [match ?x with _ => _ end] =>
      lazymatch x with
      | context [match _ with _ => _ end] => fail
      | _ => destruct x eqn:?; simpl
      end
  end.

Ltac break_match_in H :=
  match type of H with
  | context [match ?x with _ => _ end] =>
      lazymatch x with
      | context [match _ with _ => _ end] => fail
      | _ => destruct x eqn:?; simpl in H
      end
  end.

(** What [_mol_from_smiles] returns for a parsed molecule: the molecule
    with coordinates, stripped of hydrogens when that was asked and
    worked. *)
Definition prepared (env : Env) (mol : Mol) (no_h : bool) : Mol :=
  let mol := Compute2DCoords env mol in
  if no_h
  then match RemoveHs env mol with inr mol' => mol' | inl _ => mol end
  else mol.

(** The calls [_mol_from_smiles] makes. *)
Definition mol_calls (env : Env) (smiles : string) (no_h : bool)
  : list TkCall :=
  CallMolFromSmiles smiles ::
  match MolFromSmiles env smiles with
  | None => []
  | Some mol =>
      CallCompute2DCoords mol ::
      (if no_h then [CallRemoveHs (Compute2DCoords env mol)] else [])
  end.

Lemma _mol_from_smiles_run env smiles no_h w :
  _mol_from_smiles env smiles no_h w =
  (mkWorld (fs_log w) (tk_log w ++ mol_calls env smiles no_h),
   inr (option_map (fun mol => prepared env mol no_h)
          (MolFromSmiles env smiles))).
Proof.
  unfold _mol_from_smiles, mol_calls, prepared. run.
  destruct (MolFromSmiles env smiles) as [mol|]; simpl; auto.
  destruct no_h; simpl.
  - destruct (RemoveHs env (Compute2DCoords env mol)); simpl;
      rewrite <- !app_assoc; reflexivity.
  - rewrite <- !app_assoc; reflexivity.
Qed.

(** The list [mols] that the loop of [render_grid] builds, and the calls
    it makes. *)
Definition grid_mols_value (env : Env) (smiles_list : list string)
  (no_h : bool) : list (option Mol) :=
  map (fun s =>
         let ss := PyStr.strip s in
         if String.eqb ss EmptyString then None
         else option_map (fun mol => prepared env mol no_h)
                (MolFromSmiles env ss))
      smiles_list.

Definition grid_mols_calls (env : Env) (smiles_list : list string)
  (no_h : bool) : list TkCall :=
  flat_map (fun s =>
              let ss := PyStr.strip s in
              if String.eqb ss EmptyString then []
              else mol_calls env ss no_h)
           smiles_list.

Arguments grid_mols_value : simpl never.
Arguments grid_mols_calls : simpl never.

Lemma grid_mols_run env smiles_list no_h w :
  grid_mols env smiles_list no_h w =
  (mkWorld (fs_log w) (tk_log w ++ grid_mols_calls env smiles_list no_h),
   inr (grid_mols_value env smiles_list no_h)).
Proof.
  unfold grid_mols_value, grid_mols_calls.
  revert w. induction smiles_list as [|s rest IH]; intros w; simpl.
  - run. rewrite app_nil_r. now destruct w.
  - destruct (String.eqb (PyStr.strip s) EmptyString).
    + unfold bind. rewrite IH. reflexivity.
    + unfold bind. rewrite _mol_from_smiles_run, IH. unfold ret.
      cbn [fs_log tk_log]. rewrite <- app_assoc. reflexivity.
Qed.

(** *** Observations on the log of the file system *)

Definition op_path (op : FsOp) : string :=
  match op with
  | Mkdir p | WriteText p _ | SaveImage p _ _ | ToCsv p _ => p
  end.

(** An operation that writes an image or a text file. *)
Definition is_write (op : FsOp) : bool :=
  match op with
  | WriteText _ _ | SaveImage _ _ _ => true
  | Mkdir _ | ToCsv _ _ => false
  end.

Definition succeeded (ev : FsEvent) : bool :=
  match fs_exn ev with None => true | Some _ => false end.

(** The files written: the paths of the writes that succeeded. *)
Definition written (evs : list FsEvent) : list string :=
  map (fun ev => op_path (fs_op ev))
    (filter (fun ev => is_write (fs_op ev) && succeeded ev) evs).

(** The file the last operation wrote, when it is a write that
    succeeded. *)
Definition last_write (evs : list FsEvent) : option string :=
  match rev evs with
  | ev :: _ =>
      if is_write (fs_op ev) && succeeded ev
      then Some (op_path (fs_op ev)) else None
  | [] => None
  end.

Lemma written_app evs1 evs2 :
  written (evs1 ++ evs2) = (written evs1 ++ written evs2)%list.
Proof. unfold written. now rewrite filter_app, map_app. Qed.

(** *** Computations that read the world through the file-system log *)

Definition fs_only {A} (m : M A) : Prop :=
  forall w1 w2, fs_log w1 = fs_log w2 ->
    snd (m w1) = snd (m w2) /\ fs_log (fst (m w1)) = fs_log (fst (m w2)).

Create HintDb fs_only.

Lemma fs_only_ret {A} (a : A) : fs_only (ret a).
Proof. intros w1 w2 E. simpl. auto. Qed.

Lemma fs_only_raise {A} (e : exn) : fs_only (@raise A e).
Proof. intros w1 w2 E. simpl. auto. Qed.

Lemma fs_only_lift {A} (r : exn + A) : fs_only (lift r).
Proof. intros w1 w2 E. simpl. auto. Qed.

Lemma fs_only_tk_call c : fs_only (tk_call c).
Proof. intros w1 w2 E. simpl. auto. Qed.

Lemma fs_only_fs_do env op : fs_only (fs_do env op).
Proof. intros w1 w2 E. unfold fs_do. simpl. rewrite E. auto. Qed.



#[export] Hint Resolve fs_only_ret fs_only_raise fs_only_lift fs_only_tk_call
  fs_only_fs_do : fs_only.


(* ================================================================= *)
(** ** The single-molecule renderer *)

Section RenderMolecule.

Variable env : Env.

(** C2 (as the code has it).  A blank structure string is refused with
    the message "Empty SMILES provided.", no structure string and no
    output path, and the world is left as it was: nothing is asked of the
    file system or of the toolkit. *)
Theorem render_molecule_blank
  (smiles out : string) (size : Z * Z) (legend : string)
  (transparent no_h : bool) (png_dpi : Z) (w : World) :
  is_blank smiles = true ->
  render_molecule env smiles out size legend transparent no_h png_dpi w =
  (w, inr (mkRenderResult None None false "Empty SMILES provided.")).
Proof.
  intros H. apply strip_blank in H. unfold render_molecule.
  now rewrite H.
Qed.

(** What [render_molecule] does once the molecule is there. *)
Definition render_parsed (s out : string) (mol : Mol) (size : Z * Z)
  (legend : string) (transparent : bool) (png_dpi : Z) : M RenderResult :=
  let out_path := parse out in
  (fs_do env (Mkdir (to_str (parent out_path))) ;;
   let suffix := PyStr.lower (suffix out_path) in
   if negb (suffix_in suffix image_suffixes)
   then ret (mkRenderResult (Some s) None false
               "Output must end with .png or .svg")
   else
     try_except
       ((if String.eqb suffix ".png" then
           tk_call (CallMolToImage mol size legend) ;;
           img <- lift (MolToImage env mol size legend) ;;
           save_with_dpi env (to_str out_path) img png_dpi
         else
           let opts := mkDrawOptions transparent 18 2 true 5 in
           tk_call (CallMolDraw2DSVG size opts mol legend) ;;
           svg <- lift (MolDraw2DSVG env size opts mol legend) ;;
           fs_do env (WriteText (to_str out_path) svg)) ;;
        ret (mkRenderResult (Some s) (Some (to_str out_path)) true "OK"))
       (fun e =>
          ret (mkRenderResult (Some s) None false
                 ("Render error: " ++ exn_str e))))%py.

Lemma render_molecule_unfold smiles out size legend transparent no_h png_dpi w :
  PyStr.strip smiles <> EmptyString ->
  render_molecule env smiles out size legend transparent no_h png_dpi w =
  let s := PyStr.strip smiles in
  let w1 := mkWorld (fs_log w) (tk_log w ++ mol_calls env s no_h) in
  match MolFromSmiles env s with
  | None =>
      (w1, inr (mkRenderResult (Some s) None false
                  "RDKit could not parse the SMILES."))
  | Some mol =>
      render_parsed s out (prepared env mol no_h) size legend transparent
        png_dpi w1
  end.
Proof.
  intros Hs. unfold render_molecule.
  destruct (String.eqb_spec (PyStr.strip smiles) EmptyString) as [E|_];
    [contradiction|].
  unfold bind at 1. rewrite _mol_from_smiles_run. simpl.
  destruct (MolFromSmiles env (PyStr.strip smiles)); reflexivity.
Qed.


(** Every way [render_parsed] can return. *)
Lemma render_parsed_result s out mol size legend transparent png_dpi w w' r :
  render_parsed s out mol size legend transparent png_dpi w = (w', inr r) ->
  (r = mkRenderResult (Some s) (Some (to_str (parse out))) true "OK"
   /\ exists evs, fs_log w' = (fs_log w ++ evs)%list
                  /\ last_write evs = Some (to_str (parse out)))
  \/ (ok r = false /\ out_path r = None).
Proof.
  unfold render_parsed, save_with_dpi. run.
  repeat break_match;
    intros H; inversion H; subst; clear H; simpl; auto;
    left; (split; [reflexivity|]);
    eexists; (split; [rewrite <- !app_assoc; reflexivity | reflexivity]).
Qed.

(** C3 (as the code has it).  For a structure string that is not blank
    and parses, and an output path whose lower-cased suffix is neither
    .png nor .svg, when the parent directory can be created the renderer
    returns the failure "Output must end with .png or .svg" for the
    stripped string, with no output path; the one thing it asked of the
    file system is that directory, so no file is written. *)
Theorem render_molecule_bad_suffix
  (smiles out : string) (size : Z * Z) (legend : string)
  (transparent no_h : bool) (png_dpi : Z) (w : World) (mol : Mol) :
  is_blank smiles = false ->
  MolFromSmiles env (PyStr.strip smiles) = Some mol ->
  suffix_in (PyStr.lower (suffix (parse out))) image_suffixes = false ->
  fs_fault env (fs_log w) (Mkdir (to_str (parent (parse out)))) = None ->
  exists w',
    render_molecule env smiles out size legend transparent no_h png_dpi w =
    (w', inr (mkRenderResult (Some (PyStr.strip smiles)) None false
                "Output must end with .png or .svg"))
    /\ fs_log w' =
       (fs_log w ++ [mkFsEvent (Mkdir (to_str (parent (parse out)))) None])%list
    /\ written [mkFsEvent (Mkdir (to_str (parent (parse out)))) None] = [].
Proof.
  intros Hb Hmol Hsuf Hdir.
  assert (Hs : PyStr.strip smiles <> EmptyString).
  { intros E. apply strip_blank in E. congruence. }
  rewrite (render_molecule_unfold _ _ _ _ _ _ _ _ Hs). cbv zeta.
  rewrite Hmol. unfold render_parsed. run. rewrite Hdir, Hsuf. simpl.
  eexists. split; [reflexivity|]. split; reflexivity.
Qed.

(** When the parent directory cannot be created, the error leaves
    [render_molecule]: no result is returned. *)
Lemma render_molecule_mkdir_raises
  (smiles out : string) (size : Z * Z) (legend : string)
  (transparent no_h : bool) (png_dpi : Z) (w : World) (mol : Mol) (e : exn) :
  is_blank smiles = false ->
  MolFromSmiles env (PyStr.strip smiles) = Some mol ->
  fs_fault env (fs_log w) (Mkdir (to_str (parent (parse out)))) = Some e ->
  snd (render_molecule env smiles out size legend transparent no_h png_dpi w)
  = inl e.
Proof.
  intros Hb Hmol Hdir.
  assert (Hs : PyStr.strip smiles <> EmptyString).
  { intros E. apply strip_blank in E. congruence. }
  rewrite (render_molecule_unfold _ _ _ _ _ _ _ _ Hs). cbv zeta.
  rewrite Hmol. unfold render_parsed. run. now rewrite Hdir.
Qed.

(** Every result [render_molecule] returns. *)
Lemma render_molecule_result
  smiles out size legend transparent no_h png_dpi w w' r :
  render_molecule env smiles out size legend transparent no_h png_dpi w
  = (w', inr r) ->
  (r = mkRenderResult (Some (PyStr.strip smiles))
         (Some (to_str (parse out))) true "OK"
   /\ exists evs, fs_log w' = (fs_log w ++ evs)%list
                  /\ last_write evs = Some (to_str (parse out)))
  \/ (ok r = false /\ out_path r = None).
Proof.
  destruct (String.eqb_spec (PyStr.strip smiles) EmptyString) as [E|Hs].
  - unfold render_molecule. rewrite E. simpl. intros H.
    inversion H; subst. right. auto.
  - rewrite (render_molecule_unfold _ _ _ _ _ _ _ _ Hs). cbv zeta.
    destruct (MolFromSmiles env (PyStr.strip smiles)) as [mol|].
    + intros H. apply render_parsed_result in H. exact H.
    + intros H. inversion H; subst. right. auto.
Qed.

End RenderMolecule.

(* ================================================================= *)
(** ** The grid renderer *)

Section RenderGrid.

Variable env : Env.

Definition result_ok (res : exn + RenderResult) : bool :=
  match res with
  | inr r => ok r
  | inl _ => false
  end.

Ltac grid_cases :=
  unfold render_grid, save_with_dpi;
  match goal with
  | |- context [grid_mols ?e ?l ?h] =>
      unfold bind at 1; rewrite (grid_mols_run e l h)
  end;
  run; repeat break_match.

(** Every result [render_grid] returns. *)
Lemma render_grid_result
  smiles_list out legends grid size transparent no_h png_dpi title w w' r :
  render_grid env smiles_list out legends grid size transparent no_h png_dpi
    title w = (w', inr r) ->
  (r = mkRenderResult (Some "GRID") (Some (to_str (parse out))) true "OK"
   /\ exists evs, fs_log w' = (fs_log w ++ evs)%list
                  /\ last_write evs = Some (to_str (parse out)))
  \/ (ok r = false /\ out_path r = None).
Proof.
  destruct smiles_list as [|s0 rest].
  - simpl. intros H. inversion H; subst. right. auto.
  - destruct grid as [rows cols]. grid_cases;
      intros H; inversion H; subst; clear H; simpl; auto;
      left; (split; [reflexivity|]);
      eexists; (split; [rewrite <- !app_assoc; reflexivity | reflexivity]).
Qed.

(** What one call of [render_grid] leaves in the file system: the output
    file when the result is a success, and no file otherwise. *)
Lemma render_grid_effect
  smiles_list out legends grid size transparent no_h png_dpi title w w' res :
  render_grid env smiles_list out legends grid size transparent no_h png_dpi
    title w = (w', res) ->
  exists evs,
    fs_log w' = (fs_log w ++ evs)%list
    /\ written evs = if result_ok res then [to_str (parse out)] else [].
Proof.
  destruct smiles_list as [|s0 rest].
  - simpl. intros H. inversion H; subst. exists []. now rewrite app_nil_r.
  - destruct grid as [rows cols]. intros H.
    unfold render_grid, save_with_dpi in H.
    unfold bind at 1 in H. rewrite grid_mols_run in H.
    unfold bind, ret, raise, lift, try_except, tk_call, fs_do in H.
    simpl in H.
    repeat break_match_in H;
      inversion H; subst; clear H; simpl;
      (eexists; split; [rewrite <- ?app_assoc; reflexivity | reflexivity]).
Qed.


(** C10.  The grid renderer does not look at its [transparent] argument:
    two calls that differ in it only give the same result and the same
    world, hence the same files with the same contents. *)
Theorem render_grid_ignores_transparent
  (smiles_list : list string) (out : string) (legends : option (list string))
  (grid size : Z * Z) (t1 t2 no_h : bool) (png_dpi : Z) (title : string)
  (w : World) :
  render_grid env smiles_list out legends grid size t1 no_h png_dpi title w
  = render_grid env smiles_list out legends grid size t2 no_h png_dpi title w.
Proof.
  unfold render_grid. destruct t1, t2; reflexivity.
Qed.

End RenderGrid.

(* ================================================================= *)
(** ** Sample environments *)

Module Sample.

(** A toolkit that parses every string but ["bogus((("], draws without
    faults, a PubChem that knows no compound, and a file system that
    never refuses. *)
Definition env : Env :=
  mkEnv
    (fun s => if String.eqb s "bogus(((" then None else Some (mol_handle 1))
    (fun mol => mol)
    (fun mol => inr mol)
    (fun _ _ _ => inr (image_handle 1))
    (fun _ _ _ _ => inr "<svg></svg>")
    (fun _ _ _ _ => inr (image_handle 2))
    (fun _ _ _ _ => inr "<svg></svg>")
    (fun _ _ => inr [])
    (fun _ _ => None)
    (fun _ => inl (PyException "OverflowError"
                     "integer division result too large for a float"))
    (fun _ => inl (PyException "OverflowError"
                     "int too large to convert to float")).


Definition with_get_compounds (e : Env)
  (f : string -> string -> exn + list Compound) : Env :=
  mkEnv (MolFromSmiles e) (Compute2DCoords e) (RemoveHs e) (MolToImage e)
    (MolDraw2DSVG e) (MolsToGridImage_png e) (MolsToGridImage_svg e)
    f (fs_fault e) (float_half_repr e) (float_mul065_repr e).

Definition with_fs_fault (e : Env)
  (f : list FsEvent -> FsOp -> option exn) : Env :=
  mkEnv (MolFromSmiles e) (Compute2DCoords e) (RemoveHs e) (MolToImage e)
    (MolDraw2DSVG e) (MolsToGridImage_png e) (MolsToGridImage_svg e)
    (get_compounds e) f (float_half_repr e) (float_mul065_repr e).


(** A file system in which nothing can be created under ["blocked"]
    (a regular file of that name stands there) and in which
    ["molpic_out/panel_001.svg"] is a directory. *)
Definition fs_obstructed (_ : list FsEvent) (op : FsOp) : option exn :=
  match op with
  | Mkdir p =>
      if String.eqb p "blocked"
      then Some (PyException "FileExistsError"
                   "[Errno 17] File exists: 'blocked'")
      else None
  | WriteText p _ | SaveImage p _ _ =>
      if String.eqb p "molpic_out/panel_001.svg"
      then Some (PyException "IsADirectoryError"
                   "[Errno 21] Is a directory: 'molpic_out/panel_001.svg'")
      else None
  | ToCsv _ _ => None
  end.

Definition env_obstructed : Env := with_fs_fault env fs_obstructed.

(** PubChem cannot be reached. *)
Definition env_offline : Env :=
  with_get_compounds env
    (fun _ _ => inl (PyException "URLError" "network is unreachable")).

Definition world : World := mkWorld [] [].

End Sample.

(* ================================================================= *)
(** ** Results of the renderers *)

(** C2, as the claim words it, fails on the message: the renderer says
    "Empty SMILES provided.". *)
Lemma render_molecule_blank_message :
  snd (render_molecule Sample.env "  " "mol.svg" (900, 700)%Z "" true false
         300 Sample.world)
  <> inr (mkRenderResult None None false "Empty structure provided.").
Proof. vm_compute. discriminate. Qed.

Lemma render_molecule_blank_witness :
  is_blank "  " = true
  /\ render_molecule Sample.env "  " "mol.svg" (900, 700)%Z "" true false
       300 Sample.world
     = (Sample.world,
        inr (mkRenderResult None None false "Empty SMILES provided.")).
Proof.
  split; [reflexivity |].
  apply (render_molecule_blank Sample.env "  " "mol.svg" (900, 700)%Z ""
           true false 300%Z Sample.world).
  reflexivity.
Defined.

(** C3, as the claim words it, fails when the parent directory cannot be
    created: the error leaves the renderer and no result is returned. *)
Lemma render_molecule_bad_suffix_raises :
  snd (render_molecule Sample.env_obstructed "CCO" "blocked/notes.txt"
         (900, 700)%Z "" true false 300 Sample.world)
  = inl (PyException "FileExistsError" "[Errno 17] File exists: 'blocked'").
Proof. vm_compute. reflexivity. Qed.

Lemma render_molecule_bad_suffix_witness :
  exists w',
    render_molecule Sample.env "CCO" "out/notes.txt" (900, 700)%Z "" true
      false 300 Sample.world
    = (w', inr (mkRenderResult (Some "CCO") None false
                  "Output must end with .png or .svg"))
    /\ fs_log w' = [mkFsEvent (Mkdir "out") None]
    /\ written [mkFsEvent (Mkdir "out") None] = [].
Proof.
  exact (render_molecule_bad_suffix Sample.env "CCO" "out/notes.txt"
           (900, 700)%Z "" true false 300%Z Sample.world (mol_handle 1)
           eq_refl eq_refl eq_refl eq_refl).
Defined.

(** C4 (as the code has it).  A result of either renderer with [ok] set
    has the message "OK", names the output path, and the last thing that
    happened in the file system is a successful write to that path; the
    single-molecule renderer puts the stripped structure string in it and
    the grid renderer the word "GRID".  A result of either renderer with
    [ok] unset has no output path. *)
Theorem render_result_invariant (env : Env) :
  (forall smiles out size legend transparent no_h png_dpi w w' r,
      render_molecule env smiles out size legend transparent no_h png_dpi w
      = (w', inr r) ->
      (ok r = true ->
       message r = "OK"
       /\ rr_smiles r = Some (PyStr.strip smiles)
       /\ out_path r = Some (to_str (parse out))
       /\ exists evs, fs_log w' = (fs_log w ++ evs)%list
                      /\ last_write evs = Some (to_str (parse out)))
      /\ (ok r = false -> out_path r = None))
  /\ (forall smiles_list out legends grid size transparent no_h png_dpi title
             w w' r,
         render_grid env smiles_list out legends grid size transparent no_h
           png_dpi title w = (w', inr r) ->
         (ok r = true ->
          message r = "OK"
          /\ rr_smiles r = Some "GRID"
          /\ out_path r = Some (to_str (parse out))
          /\ exists evs, fs_log w' = (fs_log w ++ evs)%list
                         /\ last_write evs = Some (to_str (parse out)))
         /\ (ok r = false -> out_path r = None)).
Proof.
  split.
  - intros smiles out size legend transparent no_h png_dpi w w' r H.
    apply render_molecule_result in H.
    destruct H as [[-> Hev] | [Hok Hout]]; split; simpl; auto.
    + discriminate.
    + rewrite Hok. discriminate.
  - intros smiles_list out legends grid size transparent no_h png_dpi title
      w w' r H.
    apply render_grid_result in H.
    destruct H as [[-> Hev] | [Hok Hout]]; split; simpl; auto.
    + discriminate.
    + rewrite Hok. discriminate.
Qed.

(** C4, as the claim words it, fails on the structure string: the result
    carries the stripped string, not the one that was passed. *)
Lemma render_molecule_strips_smiles :
  exists w' r,
    render_molecule Sample.env " CCO " "mol.svg" (900, 700)%Z "" true false
      300 Sample.world = (w', inr r)
    /\ ok r = true /\ rr_smiles r <> Some " CCO ".
Proof.
  eexists. eexists. split; [vm_compute; reflexivity |].
  split; [reflexivity | discriminate].
Qed.

Lemma render_result_invariant_witness :
  exists w' r,
    render_molecule Sample.env " CCO " "out/mol.PNG" (900, 700)%Z "" true
      false 300 Sample.world = (w', inr r)
    /\ ok r = true
    /\ message r = "OK"
    /\ rr_smiles r = Some "CCO"
    /\ out_path r = Some "out/mol.PNG"
    /\ exists evs, fs_log w' = (fs_log Sample.world ++ evs)%list
                   /\ last_write evs = Some "out/mol.PNG".
Proof.
  eexists. eexists.
  assert (E : render_molecule Sample.env " CCO " "out/mol.PNG" (900, 700)%Z
                "" true false 300 Sample.world
              = (mkWorld
                   [mkFsEvent (Mkdir "out") None;
                    mkFsEvent (SaveImage "out/mol.PNG" (image_handle 1)
                                 (Some (300, 300)%Z)) None]
                   [CallMolFromSmiles "CCO";
                    CallCompute2DCoords (mol_handle 1);
                    CallMolToImage (mol_handle 1) (900, 700)%Z ""],
                 inr (mkRenderResult (Some "CCO") (Some "out/mol.PNG") true
                        "OK"))) by reflexivity.
  split; [exact E |]. split; [reflexivity |].
  exact (proj1 (proj1 (render_result_invariant Sample.env) _ _ _ _ _ _ _ _ _ _
                  E) eq_refl).
Defined.

(* ================================================================= *)
(** ** Hydrogen removal *)



(* ================================================================= *)
(** ** The resolver *)

(** The fault of the lookup, when there is one: the search by name
    raises, or it finds nothing and the search by query raises. *)
Definition lookup_fault (env : Env) (q : string) : option exn :=
  match get_compounds env q "name" with
  | inl e => Some e
  | inr [] =>
      match get_compounds env q "query" with
      | inl e => Some e
      | inr _ => None
      end
  | inr (_ :: _) => None
  end.

(** C5 (as the code has it).  The resolver always returns a result and
    asks nothing of the file system.  The result holds a structure string
    only with the message "OK"; a blank name gives the original name, no
    structure, the source "none", no identifier and the message
    "Empty name provided."; a fault of the lookup gives no structure, no
    identifier and the message "PubChem resolution error: " followed by
    the text of the fault. *)
Theorem resolve_name_to_smiles_total (env : Env) (name : string) (w : World) :
  exists w' r,
    resolve_name_to_smiles env name w = (w', inr r)
    /\ fs_log w' = fs_log w
    /\ (smiles r <> None -> res_message r = "OK")
    /\ (is_blank name = true ->
        r = mkResolveResult name None "none" None "Empty name provided.")
    /\ (forall e,
           is_blank name = false ->
           lookup_fault env (PyStr.strip name) = Some e ->
           r = mkResolveResult (PyStr.strip name) None "pubchem" None
                 ("PubChem resolution error: " ++ exn_str e)).
Proof.
  destruct (resolve_name_to_smiles env name w) as [w' res] eqn:H.
  unfold resolve_name_to_smiles, pcp_get_compounds, lookup_fault in *.
  destruct (String.eqb_spec (PyStr.strip name) EmptyString) as [E|Hs].
  - apply strip_blank in E. inversion H; subst. rewrite E.
    eexists. eexists. split; [reflexivity|]. split; [reflexivity|].
    split; [simpl; congruence|]. split; [reflexivity | discriminate].
  - assert (Hb : is_blank name = false).
    { destruct (is_blank name) eqn:B; auto.
      apply strip_blank in B. contradiction. }
    rewrite Hb.
    unfold bind, ret, raise, lift, try_except, tk_call, fs_do,
      str_or in H.
    simpl in H.
    repeat break_match_in H; inversion H; subst; clear H;
      (eexists; eexists; split; [reflexivity|]; split; [reflexivity|];
       split; [simpl; congruence|]; split; [discriminate|];
       intros e' _ He'; simpl in He'; try discriminate;
       injection He' as <-; reflexivity).
Qed.

(** C5, as the claim words it, fails on the message of a blank name: it
    ends with a full stop. *)
Lemma resolve_blank_message :
  exists w' r,
    resolve_name_to_smiles Sample.env "  " Sample.world = (w', inr r)
    /\ res_message r <> "Empty name provided".
Proof.
  eexists. eexists. split; [vm_compute; reflexivity | discriminate].
Qed.

Lemma resolve_name_to_smiles_total_witness :
  exists w' r,
    resolve_name_to_smiles Sample.env_offline " water " Sample.world = (w', inr r)
    /\ r = mkResolveResult "water" None "pubchem" None
             "PubChem resolution error: network is unreachable".
Proof.
  destruct (resolve_name_to_smiles_total Sample.env_offline " water " Sample.world)
    as (w' & r & Hrun & _ & _ & _ & Hfault).
  exists w', r. split; [exact Hrun |].
  exact (Hfault _ eq_refl eq_refl).
Defined.

(* ================================================================= *)
(** ** Title injection *)

Section Digits.

Lemma append_assoc (a b c : string) : (a ++ b) ++ c = a ++ (b ++ c).
Proof. induction a as [|x a IH]; simpl; [reflexivity | now rewrite IH]. Qed.

Lemma string_of_uint_digits (d : Decimal.uint) :
  PyStr.all PyStr.isdigit (NilEmpty.string_of_uint d) = true.
Proof. induction d; simpl; auto. Qed.

Lemma string_of_uint_nonempty (d : Decimal.uint) :
  d <> Decimal.Nil -> NilEmpty.string_of_uint d <> EmptyString.
Proof. destruct d; simpl; congruence. Qed.

Lemma of_Z_pos (p : positive) :
  PyStr.of_Z (Z.pos p) = NilEmpty.string_of_uint (Pos.to_uint p).
Proof.
  unfold PyStr.of_Z. simpl.
  pose proof (Unsigned.to_uint_nonnil p) as H.
  destruct (Pos.to_uint p); simpl; congruence.
Qed.

Lemma of_Z_digits (z : Z) :
  (0 <= z)%Z ->
  PyStr.all PyStr.isdigit (PyStr.of_Z z) = true
  /\ PyStr.of_Z z <> EmptyString.
Proof.
  intros Hz. destruct z as [|p|p]; [split; [reflexivity | discriminate] | | lia].
  rewrite of_Z_pos. split.
  - apply string_of_uint_digits.
  - apply string_of_uint_nonempty, Unsigned.to_uint_nonnil.
Qed.

Lemma digits_value_of_Z (z : Z) :
  (0 <= z)%Z -> PyNum.digits_value (PyStr.of_Z z) = z.
Proof.
  intros Hz. destruct z as [|p|p]; [reflexivity | | lia].
  rewrite of_Z_pos. unfold PyNum.digits_value.
  rewrite NilEmpty.usu. unfold N.of_uint.
  now rewrite Unsigned.of_to.
Qed.



End Digits.

Section RegexFacts.









End RegexFacts.

Section InjectTitle.

Variable env : Env.

(** The parts of the outer markup. *)
Definition svg_open : string :=
  "<svg xmlns=" ++ PyStr.dq ++ "http://www.w3.org/2000/svg" ++ PyStr.dq ++ " ".

Definition svg_header (w new_h : Z) : string :=
  svg_open ++ ("width=" ++ PyStr.dq) ++ PyStr.of_Z w ++ PyStr.dq ++ " "
  ++ ("height=" ++ PyStr.dq) ++ PyStr.of_Z new_h ++ PyStr.dq
  ++ " viewBox=" ++ PyStr.dq ++ "0 0 " ++ PyStr.of_Z w ++ " "
  ++ PyStr.of_Z new_h ++ PyStr.dq ++ ">" ++ PyStr.nl.

(** The title, anchored by its middle at [x]. *)
Definition title_element (x y title : string) : string :=
  "  <text x=" ++ PyStr.dq ++ x ++ PyStr.dq
  ++ " y=" ++ PyStr.dq ++ y ++ PyStr.dq
  ++ " text-anchor=" ++ PyStr.dq ++ "middle" ++ PyStr.dq
  ++ " font-size=" ++ PyStr.dq ++ "28" ++ PyStr.dq
  ++ " font-family=" ++ PyStr.dq ++ "Arial" ++ PyStr.dq ++ ">"
  ++ title ++ "</text>" ++ PyStr.nl.

(** The group that moves [inner] down, and the end of the markup. *)
Definition translated_group (extra_top_px : Z) (inner : string) : string :=
  "  <g transform=" ++ PyStr.dq ++ "translate(0,"
  ++ PyStr.of_Z extra_top_px ++ ")" ++ PyStr.dq ++ ">" ++ PyStr.nl
  ++ "    " ++ inner ++ PyStr.nl
  ++ "  </g>" ++ PyStr.nl
  ++ "</svg>" ++ PyStr.nl.


Lemma wrapped_svg_parts w new_h x y title extra_top_px inner :
  wrapped_svg w new_h x y title extra_top_px inner =
  svg_header w new_h ++ title_element x y title
  ++ translated_group extra_top_px inner.
Proof.
  unfold wrapped_svg, svg_header, svg_open, title_element, translated_group.
  repeat rewrite append_assoc. reflexivity.
Qed.






End InjectTitle.

(** A panel as RDKit writes one, with its XML declaration, and a small
    markup with double-quoted dimensions. *)
Definition rdkit_panel : string :=
  "<?xml version='1.0' encoding='iso-8859-1'?>" ++ PyStr.nl
  ++ "<svg version='1.1' baseProfile='full' width='1650px' height='900px'>"
  ++ "</svg>" ++ PyStr.nl.




(** The XML declaration of an RDKit panel does not reach the group. *)
Example inject_svg_title_rdkit :
  _inject_svg_title Sample.env rdkit_panel "Panel 001" 70
  = inr (svg_header 1500 1070
         ++ title_element "750.0" "45.5" "Panel 001"
         ++ translated_group 70
              ("<svg version='1.1' baseProfile='full' width='1650px' height='900px'>"
               ++ "</svg>" ++ PyStr.nl)).
Proof. reflexivity. Qed.

(* ================================================================= *)
(** ** Facts about paths *)

Section PathFacts.

Definition no_sep (x : string) : bool :=
  negb (PyStr.contains_char "/"%char x).

(** A component as [parse] keeps them. *)
Definition good_part (x : string) : bool := keep_part x && no_sep x.

Definition good_root (r : string) : bool :=
  String.eqb r EmptyString || String.eqb r "/" || String.eqb r "//".

Definition wf (p : Path) : Prop :=
  good_root (root p) = true /\ forallb good_part (parts p) = true.

Local Arguments Ascii.eqb : simpl never.

Lemma no_sep_cons (d : ascii) (x : string) :
  no_sep (String d x) = negb (is_sep d) && no_sep x.
Proof.
  unfold no_sep, is_sep. simpl.
  now rewrite (Ascii.eqb_sym "/"%char d), negb_orb.
Qed.

Lemma split_char_cons (d : ascii) (s : string) :
  PyStr.split_char "/"%char (String d s) =
  if is_sep d then EmptyString :: PyStr.split_char "/"%char s
  else match PyStr.split_char "/"%char s with
       | [] => [String d EmptyString]
       | x :: l => String d x :: l
       end.
Proof. reflexivity. Qed.

Lemma split_char_no_sep (s : string) :
  forallb no_sep (PyStr.split_char "/"%char s) = true.
Proof.
  induction s as [|d s IH]; [reflexivity |].
  rewrite split_char_cons. destruct (is_sep d) eqn:Hd.
  - simpl. exact IH.
  - destruct (PyStr.split_char "/"%char s) as [|x l]; simpl in *.
    + now rewrite no_sep_cons, Hd.
    + apply andb_true_iff in IH as [Hx Hl].
      now rewrite no_sep_cons, Hd, Hx, Hl.
Qed.

Lemma filter_keep_good (l : list string) :
  forallb no_sep l = true ->
  forallb good_part (filter keep_part l) = true.
Proof.
  induction l as [|x l IH]; simpl; auto.
  rewrite andb_true_iff. intros [Hx Hl].
  destruct (keep_part x) eqn:K; simpl; auto.
  unfold good_part at 1. rewrite K, Hx. simpl. now apply IH.
Qed.

Lemma splitroot_root (s : string) : good_root (fst (splitroot s)) = true.
Proof.
  unfold splitroot. destruct s as [|c s]; auto.
  destruct (is_sep c); auto.
  destruct (_ =? _)%nat; reflexivity.
Qed.

Lemma parse_wf (s : string) : wf (parse s).
Proof.
  unfold wf, parse. pose proof (splitroot_root s) as Hr.
  destruct (splitroot s) as [r rel]. simpl in *. split; auto.
  apply filter_keep_good, split_char_no_sep.
Qed.

Lemma filter_good (l : list string) :
  forallb good_part l = true -> filter keep_part l = l.
Proof.
  induction l as [|x l IH]; simpl; auto.
  rewrite andb_true_iff. intros [Hx Hl].
  unfold good_part in Hx. apply andb_true_iff in Hx as [K _].
  now rewrite K, IH.
Qed.

Lemma split_no_sep (x : string) :
  no_sep x = true -> PyStr.split_char "/"%char x = [x].
Proof.
  induction x as [|d x IH]; [reflexivity |].
  rewrite no_sep_cons, andb_true_iff, negb_true_iff. intros [Hd Hx].
  now rewrite split_char_cons, Hd, IH.
Qed.

Lemma split_app_sep (x r : string) :
  no_sep x = true ->
  PyStr.split_char "/"%char (x ++ String "/"%char r)
  = x :: PyStr.split_char "/"%char r.
Proof.
  induction x as [|d x IH]; [reflexivity |].
  rewrite no_sep_cons, andb_true_iff, negb_true_iff. intros [Hd Hx].
  change (String d x ++ String "/"%char r)
    with (String d (x ++ String "/"%char r)).
  now rewrite split_char_cons, Hd, IH.
Qed.

Lemma good_part_no_sep x : good_part x = true -> no_sep x = true.
Proof. unfold good_part. now rewrite andb_true_iff. Qed.

Lemma split_join (l : list string) :
  forallb good_part l = true -> l <> [] ->
  PyStr.split_char "/"%char (PyStr.join "/" l) = l.
Proof.
  induction l as [|x l IH]; [congruence |].
  simpl forallb. rewrite andb_true_iff. intros [Hx Hl] _.
  destruct l as [|y l].
  - simpl. apply split_no_sep, good_part_no_sep, Hx.
  - change (PyStr.join "/" (x :: y :: l))
      with (x ++ String "/"%char (PyStr.join "/" (y :: l))).
    rewrite split_app_sep by (apply good_part_no_sep, Hx).
    rewrite IH; auto. discriminate.
Qed.

(** A good component starts with a character that is not the
    separator. *)
Lemma good_part_head x :
  good_part x = true -> exists c x', x = String c x' /\ is_sep c = false.
Proof.
  unfold good_part, keep_part. destruct x as [|c x].
  - discriminate.
  - rewrite no_sep_cons. intros H.
    apply andb_true_iff in H as [_ H].
    apply andb_true_iff in H as [Hc _].
    apply negb_true_iff in Hc. exists c, x. split; auto.
Qed.

Lemma join_head x l :
  good_part x = true ->
  exists c r, PyStr.join "/" (x :: l) = String c r /\ is_sep c = false.
Proof.
  intros Hx. destruct (good_part_head x Hx) as (c & x' & -> & Hc).
  destruct l; simpl; eauto.
Qed.

Lemma parse_rel (s : string) :
  (forall c r, s = String c r -> is_sep c = false) ->
  parse s = mkPath EmptyString (filter keep_part (PyStr.split_char "/"%char s)).
Proof.
  intros H. unfold parse, splitroot. destruct s as [|c r]; auto.
  now rewrite (H c r eq_refl).
Qed.

Lemma lstrip_sep_rel (s : string) :
  (forall c r, s = String c r -> is_sep c = false) -> lstrip_sep s = s.
Proof.
  intros H. destruct s as [|c r]; simpl; auto. now rewrite (H c r eq_refl).
Qed.

(** The text of the components, as [parse] reads it back. *)
Lemma parts_roundtrip (l : list string) :
  forallb good_part l = true ->
  (forall c r, PyStr.join "/" l = String c r -> is_sep c = false)
  /\ filter keep_part (PyStr.split_char "/"%char (PyStr.join "/" l)) = l.
Proof.
  intros Hl. destruct l as [|x l].
  - split; [discriminate | reflexivity].
  - split.
    + simpl in Hl. apply andb_true_iff in Hl as [Hx _].
      destruct (join_head x l Hx) as (c & r & E & Hc).
      intros c' r' E'. rewrite E in E'. now inversion E'; subst.
    + rewrite split_join by (auto; discriminate). now apply filter_good.
Qed.

Lemma parse_to_str (p : Path) : wf p -> parse (to_str p) = p.
Proof.
  destruct p as [r l]. unfold wf. simpl. intros [Hr Hl].
  destruct (parts_roundtrip l Hl) as [Hhead Hsplit].
  unfold good_root in Hr. rewrite !orb_true_iff in Hr.
  destruct Hr as [[Hr | Hr] | Hr]; apply String.eqb_eq in Hr; subst r.
  - destruct l as [|x l]; [reflexivity |].
    change (to_str (mkPath EmptyString (x :: l)))
      with (PyStr.join "/" (x :: l)).
    rewrite parse_rel by exact Hhead. now rewrite Hsplit.
  - change (to_str (mkPath "/" l))
      with (String "/"%char (PyStr.join "/" l)).
    unfold parse, splitroot.
    change (is_sep "/"%char) with true. cbv iota.
    change (lstrip_sep (String "/"%char (PyStr.join "/" l)))
      with (lstrip_sep (PyStr.join "/" l)).
    rewrite (lstrip_sep_rel _ Hhead).
    change (String.length (String "/"%char (PyStr.join "/" l)))
      with (S (String.length (PyStr.join "/" l))).
    replace (S (String.length (PyStr.join "/" l))
             - String.length (PyStr.join "/" l)) with 1 by lia.
    change (1 =? 2)%nat with false. cbv iota. now rewrite Hsplit.
  - change (to_str (mkPath "//" l))
      with (String "/"%char (String "/"%char (PyStr.join "/" l))).
    unfold parse, splitroot.
    change (is_sep "/"%char) with true. cbv iota.
    change (lstrip_sep (String "/"%char (String "/"%char (PyStr.join "/" l))))
      with (lstrip_sep (PyStr.join "/" l)).
    rewrite (lstrip_sep_rel _ Hhead).
    change (String.length
              (String "/"%char (String "/"%char (PyStr.join "/" l))))
      with (S (S (String.length (PyStr.join "/" l)))).
    replace (S (S (String.length (PyStr.join "/" l)))
             - String.length (PyStr.join "/" l)) with 2 by lia.
    change (2 =? 2)%nat with true. cbv iota. now rewrite Hsplit.
Qed.



(** [p / key] is well formed whatever [key] is. *)
Lemma joinpath_wf_any (p : Path) (key : string) :
  wf p -> wf (joinpath p key).
Proof.
  intros [Hr Hl]. unfold joinpath.
  pose proof (parse_wf key) as [Hr' Hl'].
  destruct (root (parse key)) eqn:E.
  - split; simpl; auto. now rewrite forallb_app, Hl, Hl'.
  - split; [now rewrite E | exact Hl'].
Qed.


End PathFacts.

(* ================================================================= *)
(** ** The panel stage of the batch driver *)

(** The number of panels for [n] items: [n / capacity] rounded up. *)
Definition ceil_div (n capacity : nat) : nat := (n + capacity - 1) / capacity.

(** The panels as the specification counts them: panel [k + 1] holds the
    items from [k * capacity] on, [capacity] of them at most. *)
Definition panel_plan (capacity : nat) (items : list Item)
  : list (nat * list Item) :=
  map (fun k => (k + 1, slice items (k * capacity) capacity))
    (seq 0 (ceil_div (List.length items) capacity)).





Section PanelArithmetic.











End PanelArithmetic.

Section PanelStage.

Variable env : Env.

Local Arguments Ascii.eqb : simpl never.

Lemma all_app p a b :
  PyStr.all p (a ++ b) = PyStr.all p a && PyStr.all p b.
Proof.
  induction a as [|c a IH]; simpl; auto. now rewrite IH, andb_assoc.
Qed.

Lemma contains_char_app c a b :
  PyStr.contains_char c (a ++ b)
  = PyStr.contains_char c a || PyStr.contains_char c b.
Proof.
  induction a as [|d a IH]; simpl; auto. now rewrite IH, orb_assoc.
Qed.














End PanelStage.

(** The items in the order the panels take them. *)
Definition ordered_items (order_by : string) (rendered : list Item)
  : list Item :=
  if String.eqb (PyStr.lower order_by) "name"
  then sort_by_name rendered else rendered.




(** Seven rendered items, as the batch driver records them. *)
Definition seven_items : list Item :=
  map (fun k => ("mol " ++ PyStr.of_nat k, "CCO",
                 "molpic_out/" ++ PyStr.zfill 4 k ++ "_mol.svg"))
    (seq 0 7).


(** The scenario of seven structures on a 2x3 grid: two panels, titled
    "Panel 001" and "Panel 002". *)
Example seven_items_two_panels :
  written (fs_log (fst (batch_panels Sample.env (parse "molpic_out") "svg"
                          false true 2 3 "Panel" false "input" seven_items
                          Sample.world)))
  = ["molpic_out/panel_001.svg"; "molpic_out/panel_002.svg"]
  /\ map (fun job => "Panel" ++ " " ++ PyStr.zfill 3 (fst job))
       (panel_plan 6 seven_items) = ["Panel 001"; "Panel 002"].
Proof. split; vm_compute; reflexivity. Qed.



(* ================================================================= *)
(** ** The report of the batch driver *)

Section BatchReport.

Variable env : Env.

(** Creating a directory never fails. *)
Hypothesis mkdir_works : forall h p, fs_fault env h (Mkdir p) = None.






Lemma bind_ret {A B} (a : A) (k : A -> M B) w : bind (ret a) k w = k a w.
Proof. reflexivity. Qed.




End BatchReport.





(* ================================================================= *)
(** * The commands [generate] and [grid] of [molpic/cli.py] *)

(** [except cls as e]: an exception of class [cls] is handled, any other
    goes on. *)
Definition except_class (cls : string) (e : exn) : bool :=
  match e with
  | PyException c _ => String.eqb c cls
  | BadParameter _ | Exit _ => false
  end.

Definition try_except_class {A} (cls : string) (m : M A) (h : exn -> M A)
  : M A :=
  fun w =>
    match m w with
    | (w', inr a) => (w', inr a)
    | (w', inl e) => if except_class cls e then h e w' else (w', inl e)
    end.


(** [l.sort(key=key)]: a stable sort, strings compared by code point. *)
Fixpoint insert_by_key {A} (key : A -> string) (x : A) (l : list A)
  : list A :=
  match l with
  | [] => [x]
  | y :: l' =>
      if String.leb (key x) (key y) then x :: l
      else y :: insert_by_key key x l'
  end.

Definition sort_by_key {A} (key : A -> string) (l : list A) : list A :=
  fold_right (insert_by_key key) [] l.

(** [names and i < len(names) and names[i].strip()], giving the label
    for the query [q] at index [i]. *)
Definition grid_label (names : option (list string)) (i : nat) (q : string)
  : string :=
  match names with
  | Some l =>
      match nth_error l i with
      | Some n => if nonempty (PyStr.strip n) then PyStr.strip n else q
      | None => q
      end
  | None => q
  end.

(** [for i, q in enumerate(queries): ...] of [grid], from index [i] on,
    with the list [items] the loop appends to. *)
Fixpoint grid_items (env : Env) (names : option (list string)) (i : nat)
  (queries : list string) (items : list (string * string))
  : M (list (string * string)) :=
  match queries with
  | [] => ret items
  | q :: rest =>
      let q := PyStr.strip q in
      r <- try_except_class "ValueError"
             (x <- _to_smiles env q ;; ret (Some x))
             (fun _ => ret None) ;;
      match r with
      | None => grid_items env names (S i) rest items
      | Some (smiles, _, _) =>
          grid_items env names (S i) rest
            (items ++ [(grid_label names i q, smiles)])%list
      end
  end.

(** [grid(queries, out, grid, sub_w, sub_h, names, no_h, png_dpi, title,
    caption_file, order_by)]; the option [--grid] is [grid_spec] here. *)
Definition grid (env : Env) (queries : list string) (out grid_spec : string)
  (sub_w sub_h : Z) (names : option (list string)) (no_h : bool)
  (png_dpi : Z) (title caption_file order_by : string) : M unit :=
  g <- lift (_parse_grid grid_spec) ;;
  let '(rows, cols) := g in
  items <- grid_items env names 0 queries [] ;;
  match items with
  | [] => raise (Exit 2)
  | _ :: _ =>
      let items :=
        if String.eqb (PyStr.lower order_by) "name"
        then sort_by_key (fun x => PyStr.lower (fst x)) items else items in
      let legends := map fst items in
      let smiles_list := map snd items in
      rr <- render_grid env smiles_list out (Some legends) (rows, cols)
              (sub_w, sub_h) true no_h png_dpi title ;;
      if negb (ok rr) then raise (Exit 1)
      else if nonempty (PyStr.strip caption_file)
           then _write_caption env caption_file title legends
           else ret tt
  end.

(* ================================================================= *)
(** ** From a query to a structure string *)

Section ToSmiles.

Variable env : Env.

(** The resolver returns, leaves the file system alone, and a structure
    string it returns is not empty. *)
Lemma resolve_run name w :
  exists w' r,
    resolve_name_to_smiles env name w = (w', inr r)
    /\ fs_log w' = fs_log w
    /\ (forall s, smiles r = Some s -> s <> EmptyString).
Proof.
  destruct (resolve_name_to_smiles env name w) as [w' res] eqn:H.
  unfold resolve_name_to_smiles, pcp_get_compounds in H.
  unfold bind, ret, raise, lift, try_except, tk_call, fs_do, str_or in H.
  simpl in H.
  repeat break_match_in H; inversion H; subst; clear H;
    (do 2 eexists; split; [reflexivity |]; split; [reflexivity |];
     simpl; intros ? ?; congruence).
Qed.

Lemma is_probably_smiles_nonempty s :
  _is_probably_smiles s = true -> s <> EmptyString.
Proof. intros H ->. discriminate. Qed.

Lemma to_smiles_cases query w :
  exists w1,
    fs_log w1 = fs_log w
    /\ ((exists s src cid,
            _to_smiles env query w = (w1, inr (s, src, cid))
            /\ s <> EmptyString)
        \/ (exists msg,
               _to_smiles env query w
               = (w1, inl (PyException "ValueError" msg)))).
Proof.
  unfold _to_smiles. cbv zeta.
  destruct (_is_probably_smiles (PyStr.strip query)) eqn:Hc.
  - exists w. split; [reflexivity |]. left. do 3 eexists.
    split; [reflexivity |]. now apply is_probably_smiles_nonempty.
  - destruct (resolve_run (PyStr.strip query) w) as (w1 & rr & E & Hfs & Hne).
    exists w1. split; [exact Hfs |]. unfold bind. rewrite E.
    destruct (smiles rr) as [[|c r]|] eqn:Es.
    + right. eexists. reflexivity.
    + left. do 3 eexists. split; [reflexivity | discriminate].
    + right. eexists. reflexivity.
Qed.

(** X1.  A query in which the classifier finds a structural character is
    returned stripped, with the source "input" and no identifier, and
    nothing is asked of PubChem or of the file system; any other query is
    resolved by name, and then [_to_smiles] either returns a structure
    string that is not empty or raises [ValueError] - no other exception
    leaves it, and the file system is never touched. *)
Theorem to_smiles_input_or_resolved (query : string) (w : World) :
  (_is_probably_smiles (PyStr.strip query) = true ->
   _to_smiles env query w = (w, inr (PyStr.strip query, "input", None)))
  /\ (_is_probably_smiles (PyStr.strip query) = false ->
      fst (_to_smiles env query w)
      = fst (resolve_name_to_smiles env (PyStr.strip query) w))
  /\ exists w1,
       fs_log w1 = fs_log w
       /\ ((exists s src cid,
               _to_smiles env query w = (w1, inr (s, src, cid))
               /\ s <> EmptyString)
           \/ (exists msg,
                  _to_smiles env query w
                  = (w1, inl (PyException "ValueError" msg)))).
Proof.
  split; [| split].
  - intros H. unfold _to_smiles. cbv zeta. now rewrite H.
  - intros H. unfold _to_smiles. cbv zeta. rewrite H. unfold bind.
    destruct (resolve_name_to_smiles env (PyStr.strip query) w)
      as [w1 [e | rr]]; [reflexivity |].
    destruct (smiles rr) as [[|c r]|]; reflexivity.
  - apply to_smiles_cases.
Qed.

End ToSmiles.

Lemma to_smiles_input_or_resolved_witness :
  _is_probably_smiles (PyStr.strip " 2-propanol ") = true
  /\ _to_smiles Sample.env_offline " 2-propanol " Sample.world
     = (Sample.world, inr ("2-propanol", "input", None)).
Proof.
  split; [reflexivity |].
  exact (proj1 (to_smiles_input_or_resolved Sample.env_offline
                  " 2-propanol " Sample.world) eq_refl).
Defined.

(* ================================================================= *)
(** ** What the renderers leave on disk *)

Section RendererEffects.

Variable env : Env.

Lemma render_molecule_effect
  smiles out size legend transparent no_h png_dpi w w' res :
  render_molecule env smiles out size legend transparent no_h png_dpi w
  = (w', res) ->
  exists evs,
    fs_log w' = (fs_log w ++ evs)%list
    /\ written evs = if result_ok res then [to_str (parse out)] else [].
Proof.
  destruct (String.eqb_spec (PyStr.strip smiles) EmptyString) as [E|Hs].
  - unfold render_molecule. rewrite E. simpl. intros H.
    inversion H; subst. exists []. now rewrite app_nil_r.
  - rewrite (render_molecule_unfold _ _ _ _ _ _ _ _ _ Hs). cbv zeta.
    destruct (MolFromSmiles env (PyStr.strip smiles)) as [mol|].
    + intros H. unfold render_parsed, save_with_dpi in H.
      unfold bind, ret, raise, lift, try_except, tk_call, fs_do in H.
      simpl in H.
      repeat break_match_in H; inversion H; subst; clear H; simpl;
        (eexists; split; [rewrite <- ?app_assoc; reflexivity | reflexivity]).
    + intros H. inversion H; subst. exists []. simpl.
      now rewrite app_nil_r.
Qed.

(** X2.  Whatever happens, a call of [render_molecule] or of
    [render_grid] only adds to the log of the file system, and the files
    it writes are: the output file, once, when it returns a result with
    [ok] set; none when it returns a failure or raises.  No other path is
    ever written. *)
Theorem renderers_write_only_their_output :
  (forall smiles out size legend transparent no_h png_dpi w w' res,
      render_molecule env smiles out size legend transparent no_h png_dpi w
      = (w', res) ->
      exists evs,
        fs_log w' = (fs_log w ++ evs)%list
        /\ written evs = if result_ok res then [to_str (parse out)] else [])
  /\ (forall smiles_list out legends grid size transparent no_h png_dpi
             title w w' res,
         render_grid env smiles_list out legends grid size transparent no_h
           png_dpi title w = (w', res) ->
         exists evs,
           fs_log w' = (fs_log w ++ evs)%list
           /\ written evs
              = if result_ok res then [to_str (parse out)] else []).
Proof.
  split.
  - intros. eapply render_molecule_effect; eassumption.
  - intros. eapply render_grid_effect; eassumption.
Qed.

End RendererEffects.

Lemma renderers_write_only_their_output_witness :
  exists evs,
    fs_log (fst (render_molecule Sample.env_obstructed "CCO"
                   "molpic_out/panel_001.svg" (900, 700)%Z "" true false
                   300 Sample.world))
    = (fs_log Sample.world ++ evs)%list
    /\ written evs = [].
Proof.
  exact (proj1 (renderers_write_only_their_output Sample.env_obstructed)
           "CCO" "molpic_out/panel_001.svg" (900, 700)%Z "" true false
           300%Z Sample.world _ _ eq_refl).
Defined.

(* ================================================================= *)
(** ** The exit codes of [generate] and [grid] *)

Section Commands.

Variable env : Env.

(** Creating a directory never fails. *)
Hypothesis mkdir_ok : forall h p, fs_fault env h (Mkdir p) = None.





End Commands.



(** Two names PubChem does not answer for are skipped; the structure
    between them is drawn. *)
Example grid_skips_unresolved :
  written (fs_log (fst (grid Sample.env_offline
                          ["aspirin"; "C=O"; "caffeine"] "panel.svg" "2x3"
                          550 450 None false 300 "" "" "input"
                          Sample.world))) = ["panel.svg"]
  /\ snd (grid Sample.env_offline ["aspirin"; "caffeine"] "panel.svg" "2x3"
            550 450 None false 300 "" "" "input" Sample.world)
     = inl (Exit 2).
Proof. split; vm_compute; reflexivity. Qed.

(* ================================================================= *)
(** ** The grid option *)

Section ParseGrid.

Ltac by_cases_on_ascii c :=
  destruct c as [[] [] [] [] [] [] [] []];
  try (intros H; vm_compute in H; discriminate H);
  intros; vm_compute; repeat split; reflexivity.

Lemma lower_char_idem c :
  PyStr.lower_char (PyStr.lower_char c) = PyStr.lower_char c.
Proof. by_cases_on_ascii c. Qed.

Lemma lower_char_space c :
  Ascii.eqb (PyStr.lower_char c) " "%char = Ascii.eqb c " "%char.
Proof. by_cases_on_ascii c. Qed.

Lemma lower_char_digit c :
  PyStr.isdigit c = true -> PyStr.lower_char c = c.
Proof. by_cases_on_ascii c. Qed.

Lemma digit_not_special c :
  PyStr.isdigit c = true ->
  Ascii.eqb c " "%char = false /\ Ascii.eqb c "x"%char = false
  /\ Ascii.eqb c "_"%char = false /\ PyStr.isspace c = false
  /\ Ascii.eqb c "-"%char = false /\ Ascii.eqb c "+"%char = false.
Proof. by_cases_on_ascii c. Qed.

Lemma lower_idem g : PyStr.lower (PyStr.lower g) = PyStr.lower g.
Proof.
  induction g as [|c g IH]; simpl; [reflexivity |].
  now rewrite lower_char_idem, IH.
Qed.

Definition no_spaces (g : string) : string :=
  PyStr.replace_char " "%char EmptyString g.

Lemma no_spaces_lower g :
  no_spaces (PyStr.lower g) = PyStr.lower (no_spaces g).
Proof.
  unfold no_spaces. induction g as [|c g IH]; [reflexivity |].
  cbn [PyStr.lower PyStr.replace_char]. rewrite lower_char_space.
  destruct (Ascii.eqb c " "%char); simpl; now rewrite IH.
Qed.

Lemma no_spaces_idem g : no_spaces (no_spaces g) = no_spaces g.
Proof.
  unfold no_spaces. induction g as [|c g IH]; [reflexivity |].
  cbn [PyStr.replace_char].
  destruct (Ascii.eqb c " "%char) eqn:E; simpl; [exact IH |].
  now rewrite E, IH.
Qed.

Lemma split_once_none s :
  PyStr.contains_char "x"%char s = false ->
  PyStr.split_once "x"%char s = None.
Proof.
  induction s as [|c s IH]; [reflexivity |].
  cbn [PyStr.contains_char PyStr.split_once].
  rewrite orb_false_iff, Ascii.eqb_sym. intros [Hc Hs].
  now rewrite Hc, (IH Hs).
Qed.

(** X5.  The grid option is read without regard to letter case or to
    spaces; a text without the letter x is refused with the message
    "Grid must be like 2x3"; and a pair that is returned has a positive
    number of rows and a positive number of columns. *)
Theorem parse_grid_normalises (g : string) :
  _parse_grid (PyStr.lower g) = _parse_grid g
  /\ _parse_grid (no_spaces g) = _parse_grid g
  /\ (PyStr.contains_char "x"%char (no_spaces (PyStr.lower g)) = false ->
      _parse_grid g = inl (BadParameter "Grid must be like 2x3"))
  /\ (forall rows cols,
         _parse_grid g = inr (rows, cols) -> (0 < rows /\ 0 < cols)%Z).
Proof.
  split; [| split; [| split]].
  - unfold _parse_grid. now rewrite lower_idem.
  - unfold _parse_grid. fold (no_spaces (PyStr.lower (no_spaces g))).
    fold (no_spaces (PyStr.lower g)).
    now rewrite <- no_spaces_lower, no_spaces_idem.
  - intros H. unfold _parse_grid. fold (no_spaces (PyStr.lower g)).
    now rewrite (split_once_none _ H).
  - intros rows cols. unfold _parse_grid, ebind.
    destruct (PyStr.split_once _ _) as [[a b]|]; [| discriminate].
    destruct (PyNum.int a) as [|r]; [discriminate |].
    destruct (PyNum.int b) as [|c]; [discriminate |].
    destruct ((r <=? 0)%Z || (c <=? 0)%Z) eqn:E; [discriminate |].
    intros H. injection H as <- <-.
    apply orb_false_iff in E as [Hr Hc].
    apply Z.leb_gt in Hr, Hc. split; assumption.
Qed.

Lemma parse_grid_normalises_witness :
  _parse_grid " 2 X 3 " = inr (2, 3)%Z /\ (0 < 2 /\ 0 < 3)%Z.
Proof.
  split; [reflexivity |].
  exact (proj2 (proj2 (proj2 (parse_grid_normalises " 2 X 3 ")))
           2%Z 3%Z eq_refl).
Defined.

(** A text of digits and the letter x. *)
Definition plain_char (c : ascii) : bool :=
  PyStr.isdigit c || Ascii.eqb c "x"%char.

Lemma plain_char_fixed c :
  plain_char c = true ->
  PyStr.lower_char c = c /\ Ascii.eqb c " "%char = false.
Proof. unfold plain_char. by_cases_on_ascii c. Qed.

Lemma plain_normal s :
  PyStr.all plain_char s = true ->
  no_spaces (PyStr.lower s) = s.
Proof.
  unfold no_spaces. induction s as [|c s IH]; [reflexivity |].
  cbn [PyStr.all PyStr.lower PyStr.replace_char].
  rewrite andb_true_iff. intros [Hc Hs].
  destruct (plain_char_fixed c Hc) as [-> ->]. now rewrite (IH Hs).
Qed.

Lemma digits_plain d :
  PyStr.all PyStr.isdigit d = true -> PyStr.all plain_char d = true.
Proof.
  induction d as [|c d IH]; [reflexivity |].
  cbn [PyStr.all]. rewrite !andb_true_iff. intros [Hc Hd].
  unfold plain_char at 1. rewrite Hc. auto.
Qed.

Lemma split_once_app d r :
  PyStr.all PyStr.isdigit d = true ->
  PyStr.split_once "x"%char (d ++ String "x"%char r) = Some (d, r).
Proof.
  induction d as [|c d IH]; [reflexivity |].
  cbn [PyStr.all]. rewrite andb_true_iff. intros [Hc Hd].
  change (String c d ++ String "x"%char r)
    with (String c (d ++ String "x"%char r)).
  cbn [PyStr.split_once].
  destruct (digit_not_special c Hc) as (_ & -> & _).
  now rewrite (IH Hd).
Qed.

Lemma rstrip_digits d :
  PyStr.all PyStr.isdigit d = true -> PyStr.rstrip d = d.
Proof.
  induction d as [|c d IH]; [reflexivity |].
  cbn [PyStr.all PyStr.rstrip]. rewrite andb_true_iff. intros [Hc Hd].
  rewrite (IH Hd).
  destruct (digit_not_special c Hc) as (_ & _ & _ & -> & _).
  now destruct d.
Qed.

Lemma strip_digits d :
  PyStr.all PyStr.isdigit d = true -> PyStr.strip d = d.
Proof.
  intros Hd. unfold PyStr.strip.
  assert (Hl : PyStr.lstrip d = d).
  { destruct d as [|c d]; [reflexivity |]. cbn [PyStr.all] in Hd.
    apply andb_true_iff in Hd as [Hc _]. cbn [PyStr.lstrip].
    now destruct (digit_not_special c Hc) as (_ & _ & _ & -> & _). }
  rewrite Hl. now apply rstrip_digits.
Qed.

Lemma digits_us_digits prev d :
  PyStr.all PyStr.isdigit d = true ->
  d <> EmptyString \/ prev = true ->
  PyNum.digits_us prev d = Some d.
Proof.
  revert prev. induction d as [|c d IH]; intros prev Hd Hp.
  - destruct Hp as [Hp | ->]; [contradiction | reflexivity].
  - cbn [PyStr.all] in Hd. apply andb_true_iff in Hd as [Hc Hd].
    cbn [PyNum.digits_us]. rewrite Hc.
    rewrite (IH true Hd) by (right; reflexivity). reflexivity.
Qed.

(** The sign that [int] looks for is not there when the text starts
    with a digit. *)
Lemma no_sign c r :
  PyStr.isdigit c = true ->
  match String c r with
  | String "-"%char r' => (true, r')
  | String "+"%char r' => (false, r')
  | _ => (false, String c r)
  end = (false, String c r).
Proof. by_cases_on_ascii c. Qed.

Lemma int_digits d :
  PyStr.all PyStr.isdigit d = true -> d <> EmptyString ->
  String.length d <= PyNum.int_max_str_digits ->
  PyNum.int d = inr (PyNum.digits_value d).
Proof.
  intros Hd Hne Hlen. unfold PyNum.int. rewrite (strip_digits d Hd).
  destruct d as [|c r]; [contradiction |].
  assert (Hc : PyStr.isdigit c = true).
  { cbn [PyStr.all] in Hd. now apply andb_true_iff in Hd as [Hc _]. }
  rewrite (no_sign c r Hc).
  rewrite (digits_us_digits false (String c r) Hd) by (left; discriminate).
  unfold PyNum.int_of_digits.
  destruct (Nat.ltb_spec PyNum.int_max_str_digits (String.length (String c r)));
    [lia | reflexivity].
Qed.

(** X6.  The text [f"{rows}x{cols}"] of two positive integers (of at most
    4300 digits each) is read back as the pair of them. *)
Theorem parse_grid_round_trip (rows cols : Z) :
  (0 < rows)%Z -> (0 < cols)%Z ->
  String.length (PyStr.of_Z rows) <= PyNum.int_max_str_digits ->
  String.length (PyStr.of_Z cols) <= PyNum.int_max_str_digits ->
  _parse_grid (PyStr.of_Z rows ++ "x" ++ PyStr.of_Z cols)
  = inr (rows, cols).
Proof.
  intros Hr Hc Lr Lc.
  destruct (of_Z_digits rows ltac:(lia)) as [Dr Nr].
  destruct (of_Z_digits cols ltac:(lia)) as [Dc Nc].
  unfold _parse_grid. fold (no_spaces (PyStr.lower
                                       (PyStr.of_Z rows ++ "x" ++ PyStr.of_Z cols))).
  rewrite plain_normal.
  2:{ rewrite all_app, (digits_plain _ Dr). cbn [PyStr.all append].
      now rewrite (digits_plain _ Dc). }
  change (PyStr.of_Z rows ++ "x" ++ PyStr.of_Z cols)
    with (PyStr.of_Z rows ++ String "x"%char (PyStr.of_Z cols)).
  rewrite (split_once_app _ _ Dr). unfold ebind.
  rewrite (int_digits _ Dr Nr Lr), (int_digits _ Dc Nc Lc).
  rewrite !digits_value_of_Z by lia.
  destruct (Z.leb_spec rows 0); [lia |].
  destruct (Z.leb_spec cols 0); [lia |]. reflexivity.
Qed.

Lemma parse_grid_round_trip_witness :
  _parse_grid (PyStr.of_Z 12 ++ "x" ++ PyStr.of_Z 3) = inr (12, 3)%Z.
Proof.
  apply (parse_grid_round_trip 12 3); [reflexivity | reflexivity | |];
    vm_compute; lia.
Defined.

End ParseGrid.

(* ================================================================= *)
(** ** The lookups of the resolver *)

(** The compound the resolver reads: the first one found by name, or,
    when the search by name finds nothing, the first one found as a
    query. *)
Definition first_match (env : Env) (q : string) : option Compound :=
  match get_compounds env q "name" with
  | inr (c :: _) => Some c
  | inr [] =>
      match get_compounds env q "query" with
      | inr (c :: _) => Some c
      | _ => None
      end
  | inl _ => None
  end.

(** X7.  The resolver makes no lookup for a blank name.  For any other
    name it searches PubChem by name, and as a query only when the search
    by name found nothing - never more than these two lookups.  Its
    result then names the stripped query and the source "pubchem".  A
    structure string in the result is not empty, and it is the canonical
    SMILES of the first compound found or, when that is missing or
    empty, its isomeric SMILES; the identifier is that compound's. *)
Theorem resolver_lookups (env : Env) (name : string) (w : World) :
  exists w' r,
    resolve_name_to_smiles env name w = (w', inr r)
    /\ fs_log w' = fs_log w
    /\ (is_blank name = true -> tk_log w' = tk_log w)
    /\ (is_blank name = false ->
        query r = PyStr.strip name
        /\ source r = "pubchem"
        /\ tk_log w'
           = (tk_log w
              ++ CallGetCompounds (PyStr.strip name) "name"
                 :: match get_compounds env (PyStr.strip name) "name" with
                    | inr [] => [CallGetCompounds (PyStr.strip name) "query"]
                    | _ => []
                    end)%list)
    /\ (forall s,
           smiles r = Some s ->
           s <> EmptyString
           /\ exists c,
                first_match env (PyStr.strip name) = Some c
                /\ (canonical_smiles c = Some s
                    \/ ((canonical_smiles c = None
                         \/ canonical_smiles c = Some EmptyString)
                        /\ isomeric_smiles c = Some s))
                /\ pubchem_cid r = cid c).
Proof.
  destruct (resolve_name_to_smiles env name w) as [w' res] eqn:H.
  unfold resolve_name_to_smiles, pcp_get_compounds, first_match in *.
  destruct (String.eqb_spec (PyStr.strip name) EmptyString) as [E|Hs].
  - apply strip_blank in E. inversion H; subst. rewrite E.
    do 2 eexists. split; [reflexivity |]. split; [reflexivity |].
    split; [reflexivity |]. split; [discriminate |].
    simpl. intros s Hs. discriminate.
  - assert (Hb : is_blank name = false).
    { destruct (is_blank name) eqn:B; auto.
      apply strip_blank in B. contradiction. }
    rewrite Hb.
    unfold bind, ret, raise, lift, try_except, tk_call, fs_do,
      str_or in H.
    simpl in H.
    repeat break_match_in H; inversion H; subst; clear H;
      (do 2 eexists; split; [reflexivity |]; split; [reflexivity |];
       split; [discriminate |];
       split;
       [ intros _; split; [reflexivity |]; split; [reflexivity |];
         simpl; rewrite <- ?app_assoc; reflexivity
       | simpl; intros ? Hsm;
         first
           [ discriminate Hsm
           | injection Hsm as <-; split; [discriminate |];
             eexists; split; [reflexivity |];
             split; [| reflexivity];
             first [ left; congruence
                   | right; split;
                     [first [left; congruence | right; congruence]
                     | congruence] ] ] ]).
Qed.

(** PubChem knows water as a query only, with an isomeric SMILES. *)
Definition pubchem_water (q ns : string) : exn + list Compound :=
  if String.eqb ns "query"
  then inr [mkCompound (Some EmptyString) (Some "O") (Some 962%Z)]
  else inr [].

Lemma resolver_lookups_witness :
  exists w' r,
    resolve_name_to_smiles
      (Sample.with_get_compounds Sample.env pubchem_water) " water "
      Sample.world = (w', inr r)
    /\ tk_log w' = [CallGetCompounds "water" "name";
                    CallGetCompounds "water" "query"]
    /\ smiles r = Some "O".
Proof.
  destruct (resolver_lookups
              (Sample.with_get_compounds Sample.env pubchem_water)
              " water " Sample.world)
    as (w' & r & Hrun & _ & _ & Hcalls & _).
  exists w', r. split; [exact Hrun |].
  split; [exact (proj2 (proj2 (Hcalls eq_refl))) |].
  vm_compute in Hrun. now inversion Hrun.
Defined.

(* ================================================================= *)
(** ** The order of the checks and the saving of a PNG *)

Section RenderOrder.

Variable env : Env.

(** X8.  A structure string RDKit cannot parse is refused before the
    output path is looked at: whatever the path, [render_molecule]
    returns the failure "RDKit could not parse the SMILES." for the
    stripped string, it has made the one call [MolFromSmiles], and
    nothing was asked of the file system - not even the parent
    directory is created. *)
Theorem render_molecule_unparsable
  (smiles out : string) (size : Z * Z) (legend : string)
  (transparent no_h : bool) (png_dpi : Z) (w : World) :
  is_blank smiles = false ->
  MolFromSmiles env (PyStr.strip smiles) = None ->
  render_molecule env smiles out size legend transparent no_h png_dpi w
  = (mkWorld (fs_log w)
       (tk_log w ++ [CallMolFromSmiles (PyStr.strip smiles)]),
     inr (mkRenderResult (Some (PyStr.strip smiles)) None false
            "RDKit could not parse the SMILES.")).
Proof.
  intros Hb Hmol.
  assert (Hs : PyStr.strip smiles <> EmptyString).
  { intros E. apply strip_blank in E. congruence. }
  rewrite (render_molecule_unfold _ _ _ _ _ _ _ _ _ Hs). cbv zeta.
  unfold mol_calls. now rewrite Hmol.
Qed.

(** X9.  Saving a PNG: the image is saved with the resolution asked for;
    when that raises, the exception is dropped and the image is saved
    again without a resolution.  The result is a success as soon as one
    of the two saves works, and when both fail the message is that of
    the second failure. *)
Theorem png_save_falls_back
  (smiles out : string) (size : Z * Z) (legend : string)
  (transparent no_h : bool) (png_dpi : Z) (w : World) (mol : Mol)
  (img : Image) :
  is_blank smiles = false ->
  MolFromSmiles env (PyStr.strip smiles) = Some mol ->
  String.eqb (PyStr.lower (suffix (parse out))) ".png" = true ->
  MolToImage env (prepared env mol no_h) size legend = inr img ->
  fs_fault env (fs_log w) (Mkdir (to_str (parent (parse out)))) = None ->
  let s := PyStr.strip smiles in
  let p := to_str (parse out) in
  let made := mkFsEvent (Mkdir (to_str (parent (parse out)))) None in
  let first_save := SaveImage p img (Some (png_dpi, png_dpi)) in
  let second_save := SaveImage p img None in
  exists w' r,
    render_molecule env smiles out size legend transparent no_h png_dpi w
    = (w', inr r)
    /\ match fs_fault env (fs_log w ++ [made]) first_save with
       | None =>
           fs_log w' = (fs_log w ++ [made; mkFsEvent first_save None])%list
           /\ r = mkRenderResult (Some s) (Some p) true "OK"
       | Some e1 =>
           let h := (fs_log w ++ [made; mkFsEvent first_save (Some e1)])%list in
           fs_log w'
           = (h ++ [mkFsEvent second_save (fs_fault env h second_save)])%list
           /\ r = match fs_fault env h second_save with
                  | None => mkRenderResult (Some s) (Some p) true "OK"
                  | Some e2 =>
                      mkRenderResult (Some s) None false
                        ("Render error: " ++ exn_str e2)
                  end
       end.
Proof.
  intros Hb Hmol Hpng Himg Hdir. cbv zeta.
  assert (Hs : PyStr.strip smiles <> EmptyString).
  { intros E. apply strip_blank in E. congruence. }
  rewrite (render_molecule_unfold _ _ _ _ _ _ _ _ _ Hs). cbv zeta.
  rewrite Hmol. unfold render_parsed, save_with_dpi.
  assert (Hin : suffix_in (PyStr.lower (suffix (parse out))) image_suffixes
                = true).
  { apply String.eqb_eq in Hpng. rewrite Hpng. reflexivity. }
  unfold bind, ret, raise, lift, try_except, tk_call, fs_do. simpl.
  rewrite Hdir, Hin, Hpng. simpl. rewrite Himg. simpl.
  destruct (fs_fault env (fs_log w ++ [_])%list (SaveImage _ img (Some _)))
    as [e1|] eqn:E1.
  - simpl. rewrite <- !app_assoc. simpl.
    destruct (fs_fault env _ (SaveImage _ img None)) as [e2|] eqn:E2;
      simpl; do 2 eexists; (split; [reflexivity |]);
      rewrite <- ?app_assoc; simpl; split; reflexivity.
  - simpl. do 2 eexists. split; [reflexivity |].
    rewrite <- ?app_assoc. simpl. split; reflexivity.
Qed.

End RenderOrder.

Lemma render_molecule_unparsable_witness :
  render_molecule Sample.env " bogus((( " "blocked/x.txt" (900, 700)%Z ""
    true false 300 Sample.world
  = (mkWorld [] [CallMolFromSmiles "bogus((("],
     inr (mkRenderResult (Some "bogus(((") None false
            "RDKit could not parse the SMILES.")).
Proof.
  exact (render_molecule_unparsable Sample.env " bogus((( " "blocked/x.txt"
           (900, 700)%Z "" true false 300%Z Sample.world eq_refl eq_refl).
Defined.

(** A file system that refuses to record a resolution. *)
Definition fs_no_dpi (_ : list FsEvent) (op : FsOp) : option exn :=
  match op with
  | SaveImage _ _ (Some _) =>
      Some (PyException "ValueError" "dpi not supported")
  | _ => None
  end.

Lemma png_save_falls_back_witness :
  exists w' r,
    render_molecule (Sample.with_fs_fault Sample.env fs_no_dpi) "C=O"
      "out/x.PNG" (900, 700)%Z "" true false 300 Sample.world = (w', inr r)
    /\ fs_log w'
       = [mkFsEvent (Mkdir "out") None;
          mkFsEvent (SaveImage "out/x.PNG" (image_handle 1)
                       (Some (300, 300)%Z))
            (Some (PyException "ValueError" "dpi not supported"));
          mkFsEvent (SaveImage "out/x.PNG" (image_handle 1) None) None]
    /\ r = mkRenderResult (Some "C=O") (Some "out/x.PNG") true "OK".
Proof.
  exact (png_save_falls_back (Sample.with_fs_fault Sample.env fs_no_dpi)
           "C=O" "out/x.PNG" (900, 700)%Z "" true false 300%Z Sample.world
           (mol_handle 1) (image_handle 1) eq_refl eq_refl eq_refl eq_refl
           eq_refl).
Defined.

(* ================================================================= *)
(** ** The cells of a grid *)

Section GridCells.

Variable env : Env.

Lemma grid_mols_value_nth smiles_list no_h i s :
  nth_error smiles_list i = Some s ->
  nth_error (grid_mols_value env smiles_list no_h) i
  = Some (if is_blank s then None
          else option_map (fun mol => prepared env mol no_h)
                 (MolFromSmiles env (PyStr.strip s))).
Proof.
  intros H. unfold grid_mols_value.
  rewrite nth_error_map, H. simpl. f_equal.
  destruct (String.eqb_spec (PyStr.strip s) EmptyString) as [E|E].
  - apply strip_blank in E. now rewrite E.
  - destruct (is_blank s) eqn:B; [| reflexivity].
    apply strip_blank in B. contradiction.
Qed.

(** X10.  For a list of structure strings that is not empty and an
    output path ending in .png or .svg, once the parent directory is
    there [render_grid] asks RDKit for one grid image, after the calls
    that prepare the molecules.  The image has one cell per input, in
    the order of the input; the cell of a blank or unparsable string is
    empty, so the cells after it keep their place.  The width of
    the grid is [cols] molecules; [rows] is not passed on, and two calls
    that differ in [rows] only do the same. *)
Theorem render_grid_cells
  (smiles_list : list string) (out : string) (legends : option (list string))
  (rows cols : Z) (size : Z * Z) (transparent no_h : bool) (png_dpi : Z)
  (title : string) (w : World) :
  smiles_list <> [] ->
  suffix_in (PyStr.lower (suffix (parse out))) image_suffixes = true ->
  fs_fault env (fs_log w) (Mkdir (to_str (parent (parse out)))) = None ->
  exists mols,
    tk_log (fst (render_grid env smiles_list out legends (rows, cols) size
                   transparent no_h png_dpi title w))
    = (tk_log w ++ grid_mols_calls env smiles_list no_h
       ++ [CallMolsToGridImage mols cols size
             (used_legends legends smiles_list)
             (negb (String.eqb (PyStr.lower (suffix (parse out))) ".png"))])%list
    /\ List.length mols = List.length smiles_list
    /\ (forall i s,
           nth_error smiles_list i = Some s ->
           nth_error mols i
           = Some (if is_blank s then None
                   else option_map (fun mol => prepared env mol no_h)
                          (MolFromSmiles env (PyStr.strip s))))
    /\ (forall rows',
           render_grid env smiles_list out legends (rows', cols) size
             transparent no_h png_dpi title w
           = render_grid env smiles_list out legends (rows, cols) size
               transparent no_h png_dpi title w).
Proof.
  intros Hne Hsuf Hdir.
  exists (grid_mols_value env smiles_list no_h).
  split; [| split; [| split]].
  - destruct smiles_list as [|s0 rest]; [contradiction |].
    unfold render_grid, save_with_dpi.
    unfold bind at 1. rewrite grid_mols_run.
    unfold bind, ret, raise, lift, try_except, tk_call, fs_do. simpl.
    rewrite Hdir, Hsuf. simpl.
    repeat break_match; simpl; rewrite <- ?app_assoc; reflexivity.
  - unfold grid_mols_value. apply length_map.
  - intros i s. apply grid_mols_value_nth.
  - reflexivity.
Qed.

End GridCells.

Lemma render_grid_cells_witness :
  exists mols,
    tk_log (fst (render_grid Sample.env ["C=O"; "  "; "bogus((("; "CCO"]
                   "panel.svg" None (1, 2)%Z (550, 450)%Z true false 300
                   "" Sample.world))
    = ([] ++ grid_mols_calls Sample.env ["C=O"; "  "; "bogus((("; "CCO"]
                false
       ++ [CallMolsToGridImage mols 2 (550, 450)%Z [""; ""; ""; ""] true])%list
    /\ mols = [Some (mol_handle 1); None; None; Some (mol_handle 1)].
Proof.
  destruct (render_grid_cells Sample.env ["C=O"; "  "; "bogus((("; "CCO"]
              "panel.svg" None 1%Z 2%Z (550, 450)%Z true false 300%Z ""
              Sample.world ltac:(discriminate) eq_refl eq_refl)
    as (mols & Hcalls & _ & Hcell & _).
  exists mols. split; [exact Hcalls |].
  pose proof (Hcell 0 _ eq_refl) as H0. pose proof (Hcell 1 _ eq_refl) as H1.
  pose proof (Hcell 2 _ eq_refl) as H2. pose proof (Hcell 3 _ eq_refl) as H3.
  vm_compute in Hcalls.
  destruct mols as [|m0 [|m1 [|m2 [|m3 [|m4 mols]]]]];
    try discriminate Hcalls.
  vm_compute in H0, H1, H2, H3. congruence.
Defined.

(* ================================================================= *)
(** ** What the grid option and the batch command refuse *)

Section Refusals.





Variable env : Env.


End Refusals.


(* ================================================================= *)
(** ** The order by name *)

Section OrderByName.

Lemma ascii_compare_spec a b :
  CompareSpec (a = b) (N_of_ascii a < N_of_ascii b)%N
    (N_of_ascii b < N_of_ascii a)%N (Ascii.compare a b).
Proof.
  unfold Ascii.compare.
  destruct (N.compare_spec (N_of_ascii a) (N_of_ascii b)) as [E|L|G];
    constructor; auto.
  rewrite <- (ascii_N_embedding a), <- (ascii_N_embedding b). now rewrite E.
Qed.

Lemma string_leb_trans s1 : forall s2 s3,
  String.leb s1 s2 = true -> String.leb s2 s3 = true ->
  String.leb s1 s3 = true.
Proof.
  unfold String.leb.
  induction s1 as [|c1 s1 IH]; intros [|c2 s2] [|c3 s3]; simpl;
    try reflexivity; try discriminate.
  destruct (ascii_compare_spec c1 c2) as [E12|L12|G12];
    destruct (ascii_compare_spec c2 c3) as [E23|L23|G23];
    destruct (ascii_compare_spec c1 c3) as [E13|L13|G13];
    subst; try discriminate; try reflexivity; try lia; auto.
  apply IH.
Qed.

Lemma string_leb_refl s : String.leb s s = true.
Proof. now destruct (String.leb_total s s). Qed.

Lemma string_leb_false s1 s2 :
  String.leb s1 s2 = false -> String.leb s2 s1 = true /\ s1 <> s2.
Proof.
  intros H. split.
  - destruct (String.leb_total s1 s2) as [E|E]; [congruence | exact E].
  - intros ->. rewrite string_leb_refl in H. discriminate.
Qed.

Context {A : Type} (key : A -> string).

(** [x] comes before [y]: its key is not greater. *)
Definition key_le (x y : A) : Prop := String.leb (key x) (key y) = true.

Lemma insert_by_key_perm x l :
  Permutation (x :: l) (insert_by_key key x l).
Proof.
  induction l as [|y l IH]; simpl; [reflexivity |].
  destruct (String.leb (key x) (key y)); [reflexivity |].
  rewrite perm_swap. now constructor.
Qed.

Lemma insert_by_key_Forall (P : A -> Prop) x l :
  P x -> Forall P l -> Forall P (insert_by_key key x l).
Proof.
  intros Hx Hl. eapply Permutation_Forall; [apply insert_by_key_perm |].
  now constructor.
Qed.

Lemma insert_by_key_sorted x l :
  StronglySorted key_le l -> StronglySorted key_le (insert_by_key key x l).
Proof.
  induction 1 as [|y l Hs IH Hy]; simpl.
  - constructor; constructor.
  - destruct (String.leb (key x) (key y)) eqn:E.
    + constructor; [now constructor |].
      constructor; [exact E |].
      eapply Forall_impl; [| exact Hy].
      intros z Hz. unfold key_le in *. eapply string_leb_trans; eassumption.
    + constructor; [exact IH |].
      apply insert_by_key_Forall; [| exact Hy].
      apply string_leb_false in E. apply E.
Qed.

Lemma insert_by_key_filter k x l :
  filter (fun y => String.eqb (key y) k) (insert_by_key key x l)
  = filter (fun y => String.eqb (key y) k) (x :: l).
Proof.
  induction l as [|y l IH]; [reflexivity |].
  cbn [insert_by_key].
  destruct (String.leb (key x) (key y)) eqn:E; [reflexivity |].
  cbn [filter] in *. rewrite IH.
  destruct (String.eqb_spec (key x) k) as [Hx|Hx];
    destruct (String.eqb_spec (key y) k) as [Hy|Hy]; try reflexivity.
  apply string_leb_false in E. destruct E as [_ E]. congruence.
Qed.

Lemma sort_by_key_spec l :
  Permutation l (sort_by_key key l)
  /\ StronglySorted key_le (sort_by_key key l)
  /\ (forall k,
         filter (fun x => String.eqb (key x) k) (sort_by_key key l)
         = filter (fun x => String.eqb (key x) k) l).
Proof.
  unfold sort_by_key. induction l as [|x l (Hp & Hs & Hf)]; simpl.
  - repeat split; constructor.
  - split; [| split].
    + rewrite <- insert_by_key_perm. now constructor.
    + now apply insert_by_key_sorted.
    + intros k. rewrite insert_by_key_filter. cbn [filter].
      now rewrite Hf.
Qed.

End OrderByName.

(** The sort of [batch] is the sort of [grid], on the lower-cased
    legend. *)
Lemma sort_by_name_by_key (l : list Item) :
  sort_by_name l = sort_by_key (fun x => PyStr.lower (item_legend x)) l.
Proof.
  unfold sort_by_name, sort_by_key. induction l as [|x l IH]; simpl;
    [reflexivity |].
  rewrite IH. generalize (fold_right
    (insert_by_key (fun x0 : Item => PyStr.lower (item_legend x0))) [] l).
  intros m. induction m as [|y m IHm]; simpl; [reflexivity |].
  now rewrite IHm.
Qed.

(** X13.  With [--order-by name] the items of [batch] (and those of
    [grid], sorted the same way) are rearranged, none lost and none
    added; their lower-cased legends then never decrease, compared code
    point by code point; and items whose lower-cased legends are equal
    keep the order they had.  With any other value the order is left as
    it is. *)
Theorem order_by_name_is_a_stable_sort (order_by : string)
  (rendered : list Item) :
  let key := fun x : Item => PyStr.lower (item_legend x) in
  let items := ordered_items order_by rendered in
  Permutation rendered items
  /\ (forall k,
         filter (fun x => String.eqb (key x) k) items
         = filter (fun x => String.eqb (key x) k) rendered)
  /\ (PyStr.lower order_by = "name" ->
      items = sort_by_key key rendered
      /\ StronglySorted
           (fun x y => String.leb (key x) (key y) = true) items)
  /\ (PyStr.lower order_by <> "name" -> items = rendered).
Proof.
  cbv zeta. unfold ordered_items. rewrite sort_by_name_by_key.
  destruct (sort_by_key_spec (fun x : Item => PyStr.lower (item_legend x))
              rendered) as (Hp & Hs & Hf).
  destruct (String.eqb_spec (PyStr.lower order_by) "name") as [E|E].
  - split; [exact Hp |]. split; [exact Hf |].
    split; [intros _; split; [reflexivity | exact Hs] |].
    intros H. contradiction.
  - split; [reflexivity |]. split; [reflexivity |].
    split; [intros H; contradiction | reflexivity].
Qed.

Lemma order_by_name_is_a_stable_sort_witness :
  ordered_items "Name"
    [("b", "CC", "2.svg"); ("B", "C", "1.svg"); ("a", "CO", "3.svg")]
  = [("a", "CO", "3.svg"); ("b", "CC", "2.svg"); ("B", "C", "1.svg")]
  /\ Permutation
       [("b", "CC", "2.svg"); ("B", "C", "1.svg"); ("a", "CO", "3.svg")]
       (ordered_items "Name"
          [("b", "CC", "2.svg"); ("B", "C", "1.svg"); ("a", "CO", "3.svg")]).
Proof.
  split; [reflexivity |].
  exact (proj1 (order_by_name_is_a_stable_sort "Name"
                  [("b", "CC", "2.svg"); ("B", "C", "1.svg");
                   ("a", "CO", "3.svg")])).
Defined.

(* ================================================================= *)
(** ** The pictures of the rows of a batch *)

Definition item_file (x : Item) : string := snd x.

(** [entry.get(k)]. *)
Fixpoint dict_get (k : string) (d : Dict) : option PyVal :=
  match d with
  | [] => None
  | (k', v) :: d' => if String.eqb k' k then Some v else dict_get k d'
  end.

(** The column [out] of the report, over the rows it marks [ok]. *)
Definition reported_files (report : list Dict) : list PyVal :=
  flat_map (fun entry =>
              match dict_get "ok" entry, dict_get "out" entry with
              | Some (VBool true), Some v => [v]
              | _, _ => []
              end) report.

(** [(legend.replace(" ", "_").replace("/", "_"))[:80]]. *)
Definition safe_label (legend : string) : string :=
  PyStr.take 80
    (PyStr.replace_char "/"%char "_" (PyStr.replace_char " "%char "_" legend)).

(** [f"{i:04d}_{safe_label}.{fmt}"]. *)
Definition row_key (fmt : string) (i : nat) (legend : string) : string :=
  PyStr.zfill 4 i ++ "_" ++ safe_label legend ++ "." ++ fmt.

(** [str(outp / f"{i:04d}_{safe_label}.{fmt}")]. *)
Definition row_file (outp : Path) (fmt : string) (i : nat) (legend : string)
  : string :=
  to_str (joinpath outp (row_key fmt i legend)).


Section RowFiles.

Local Arguments Ascii.eqb : simpl never.













Variable env : Env.

Lemma row_render_files smiles out_dir key legend no_h w w2 r :
  render_molecule env smiles (to_str (joinpath (parse out_dir) key))
    (900, 700)%Z legend true no_h 300 w = (w2, inr r) ->
  exists evs,
    fs_log w2 = (fs_log w ++ evs)%list
    /\ written evs
       = (if ok r then [to_str (joinpath (parse out_dir) key)] else [])
    /\ (ok r = true ->
        out_path r = Some (to_str (joinpath (parse out_dir) key))).
Proof.
  intros Er.
  pose proof (parse_to_str _ (joinpath_wf_any _ key (parse_wf out_dir)))
    as Hp.
  destruct (render_molecule_effect env _ _ _ _ _ _ _ _ _ _ Er)
    as (evs & Ev & Wr).
  simpl in Wr. rewrite Hp in Wr.
  exists evs. split; [exact Ev |]. split; [exact Wr |].
  intros Hok.
  apply render_molecule_result in Er as [[-> _] | [Hf _]];
    [simpl; now rewrite Hp | congruence].
Qed.

Lemma batch_row_files smiles_col name_col has_smiles has_name out_dir fmt
  no_h i row w w' entry item :
  batch_row env smiles_col name_col has_smiles has_name (parse out_dir) fmt
    no_h i row w = (w', inr (entry, item)) ->
  exists evs,
    fs_log w' = (fs_log w ++ evs)%list
    /\ written evs
       = match item with Some x => [item_file x] | None => [] end
    /\ reported_files [entry]
       = match item with Some x => [VStr (item_file x)] | None => [] end
    /\ (forall x, item = Some x ->
          exists legend,
            item_file x = row_file (parse out_dir) fmt i legend).
Proof.
  intros H. unfold batch_row in H. cbv zeta in H.
  set (raw_smiles := if has_smiles then _ else _) in H.
  set (raw_name := if has_name then _ else _) in H.
  destruct (nonempty (if nonempty raw_smiles then raw_smiles else raw_name))
    eqn:Hq; cbn [negb] in H; cbv iota in H.
  - destruct (nonempty raw_smiles) eqn:Hsm; cbv iota in H.
    + rewrite bind_ret in H. cbv beta iota in H. unfold bind in H.
      match type of H with
      | context [render_molecule env ?a1 ?a2 ?a3 ?a4 ?a5 ?a6 ?a7 w] =>
          destruct (render_molecule env a1 a2 a3 a4 a5 a6 a7 w)
            as [w2 [e|r]] eqn:Er
      end; [discriminate |].
      unfold ret in H. injection H as <- <- <-.
      destruct (row_render_files _ _ _ _ _ _ _ _ Er)
        as (evs & Ev & Wr & Hout).
      exists evs. split; [exact Ev |].
      destruct (ok r) eqn:Hok.
      * rewrite (Hout eq_refl). split; [exact Wr |].
        split; [reflexivity |].
        intros x Hx. injection Hx as <-. eexists. reflexivity.
      * split; [exact Wr |]. split; [reflexivity |]. discriminate.
    + destruct (resolve_run env raw_name w) as (w1 & rr & E & Hfs & _).
      unfold bind at 1 in H. unfold bind at 1 in H. rewrite E in H.
      destruct (smiles rr) as [[|c s]|]; unfold ret at 1 in H;
        cbv beta iota in H.
      * unfold ret in H. injection H as <- <- <-. exists [].
        rewrite app_nil_r. repeat split; auto. discriminate.
      * unfold bind in H.
        match type of H with
        | context [render_molecule env ?a1 ?a2 ?a3 ?a4 ?a5 ?a6 ?a7 w1] =>
            destruct (render_molecule env a1 a2 a3 a4 a5 a6 a7 w1)
              as [w2 [e|r]] eqn:Er
        end; [discriminate |].
        unfold ret in H. injection H as <- <- <-.
        destruct (row_render_files _ _ _ _ _ _ _ _ Er)
          as (evs & Ev & Wr & Hout).
        exists evs. split; [congruence |].
        destruct (ok r) eqn:Hok.
        -- rewrite (Hout eq_refl). split; [exact Wr |].
           split; [reflexivity |].
           intros x Hx. injection Hx as <-. eexists. reflexivity.
        -- split; [exact Wr |]. split; [reflexivity |]. discriminate.
      * unfold ret in H. injection H as <- <- <-. exists [].
        rewrite app_nil_r. repeat split; auto. discriminate.
  - unfold ret in H. injection H as <- <- <-. exists [].
    rewrite app_nil_r. repeat split; auto. discriminate.
Qed.

Lemma batch_rows_files smiles_col name_col has_smiles has_name out_dir fmt
  no_h rows :
  forall i report rendered w w' report' rendered',
    batch_rows env smiles_col name_col has_smiles has_name (parse out_dir)
      fmt no_h i rows report rendered w = (w', inr (report', rendered')) ->
    exists entries items evs kls,
      report' = (report ++ entries)%list
      /\ rendered' = (rendered ++ items)%list
      /\ fs_log w' = (fs_log w ++ evs)%list
      /\ written evs = map item_file items
      /\ reported_files entries = map (fun x => VStr (item_file x)) items
      /\ map item_file items
         = map (fun kl => row_file (parse out_dir) fmt (fst kl) (snd kl)) kls
      /\ StronglySorted lt (map fst kls)
      /\ Forall (fun kl => i <= fst kl < i + List.length rows) kls.
Proof.
  induction rows as [|row rest IH];
    intros i report rendered w w' report' rendered' H.
  - simpl in H. injection H as <- <- <-.
    exists [], [], [], []. rewrite !app_nil_r.
    repeat split; auto; constructor.
  - simpl batch_rows in H. unfold bind at 1 in H.
    destruct (batch_row env smiles_col name_col has_smiles has_name
                (parse out_dir) fmt no_h i row w)
      as [w1 [e|[entry item]]] eqn:E; [discriminate |].
    apply batch_row_files in E as (evs1 & Ev1 & Wr1 & Rp1 & Hfile).
    apply IH in H
      as (entries & items & evs & kls & -> & -> & Ev & Wr & Rp & Hk & Hs & Hr).
    assert (Hr' : Forall (fun kl => i <= fst kl < i + List.length (row :: rest))
                    kls).
    { eapply Forall_impl; [| exact Hr]. simpl. intros kl Hkl. lia. }
    assert (Hrep : reported_files (entry :: entries)
                   = (reported_files [entry] ++ reported_files entries)%list).
    { unfold reported_files. simpl. now rewrite app_nil_r. }
    destruct item as [x|].
    + destruct (Hfile x eq_refl) as (legend & Hx).
      exists (entry :: entries), (x :: items), (evs1 ++ evs)%list,
        ((i, legend) :: kls).
      split; [now rewrite <- app_assoc |].
      split; [now rewrite <- app_assoc |].
      split; [now rewrite Ev, Ev1, app_assoc |].
      split; [now rewrite written_app, Wr1, Wr |].
      split; [now rewrite Hrep, Rp1, Rp |].
      split; [simpl; now rewrite Hx, Hk |].
      split.
      * simpl. constructor; [exact Hs |].
        rewrite Forall_map. eapply Forall_impl; [| exact Hr].
        simpl. intros kl Hkl. lia.
      * constructor; [simpl; lia | exact Hr'].
    + exists (entry :: entries), items, (evs1 ++ evs)%list, kls.
      split; [now rewrite <- app_assoc |].
      split; [reflexivity |].
      split; [now rewrite Ev, Ev1, app_assoc |].
      split; [now rewrite written_app, Wr1, Wr |].
      split; [now rewrite Hrep, Rp1, Rp |].
      split; [exact Hk |]. split; [exact Hs | exact Hr'].
Qed.

(** X14.  The row loop of [batch] and its report agree with what is on
    disk: the files the loop writes are the pictures of the rendered
    items, one each and in the order of the rows, and they are the paths
    the report gives in its column [out] for the rows it marks [ok].  A
    row that is not marked [ok] has written nothing. *)
Theorem batch_rows_pictures
  (smiles_col name_col : string) (has_smiles has_name : bool)
  (out_dir fmt : string) (no_h : bool) (rows : list (list (string * string)))
  (w w' : World) (report : list Dict) (rendered : list Item) :
  batch_rows env smiles_col name_col has_smiles has_name (parse out_dir) fmt
    no_h 0 rows [] [] w = (w', inr (report, rendered)) ->
  exists evs,
    fs_log w' = (fs_log w ++ evs)%list
    /\ written evs = map item_file rendered
    /\ reported_files report = map (fun x => VStr (item_file x)) rendered.
Proof.
  intros H. apply batch_rows_files in H
    as (entries & items & evs & kls & -> & -> & Ev & Wr & Rp & _).
  exists evs. simpl. auto.
Qed.


End RowFiles.

(** Two rows with the same name, and a row that cannot be drawn. *)
Definition twin_table : DataFrame :=
  mkDataFrame ["smiles"; "name"]
    [[("smiles", "CCO"); ("name", "ethanol")];
     [("smiles", "bogus((("); ("name", "ethanol")];
     [("smiles", "C=O"); ("name", "ethanol")]].

Lemma batch_rows_pictures_witness :
  exists w' report rendered evs,
    batch_rows Sample.env "smiles" "name" true true (parse "molpic_out")
      "svg" false 0 (df_rows twin_table) [] [] Sample.world
    = (w', inr (report, rendered))
    /\ fs_log w' = (fs_log Sample.world ++ evs)%list
    /\ written evs = map item_file rendered
    /\ map item_file rendered
       = ["molpic_out/0000_ethanol.svg"; "molpic_out/0002_ethanol.svg"].
Proof.
  eassert (E : batch_rows Sample.env "smiles" "name" true true
                 (parse "molpic_out") "svg" false 0 (df_rows twin_table)
                 [] [] Sample.world = (_, inr (_, _)))
    by (vm_compute; reflexivity).
  destruct (batch_rows_pictures Sample.env "smiles" "name" true true
              "molpic_out" "svg" false (df_rows twin_table) Sample.world
              _ _ _ E) as (evs & Ev & Wr & _).
  do 3 eexists. exists evs. split; [exact E |]. split; [exact Ev |].
  split; [exact Wr | reflexivity].
Defined.


(* ================================================================= *)
(** ** Dimensions the title injection does not see *)

Section UnseenDimensions.

Variable env : Env.

Lemma strip_prefix_contains c p s r :
  PyStr.strip_prefix p s = Some r ->
  PyStr.contains_char c p = true -> PyStr.contains_char c s = true.
Proof.
  revert s. induction p as [|a p IH]; intros [|b s]; simpl;
    try discriminate.
  destruct (Ascii.eqb_spec a b) as [<-|]; [| discriminate].
  intros H. rewrite !orb_true_iff. intros [Hc | Hc]; [now left |].
  right. now apply IH.
Qed.

Lemma search_dim_unquoted key s :
  PyStr.contains_char "034"%char s = false -> Re.search_dim key s = None.
Proof.
  induction s as [|c s IH]; intros Hs.
  - simpl. unfold Re.match_dim.
    destruct (PyStr.strip_prefix _ EmptyString) as [r|] eqn:E;
      [| reflexivity].
    apply (strip_prefix_contains "034"%char) in E; [discriminate |].
    rewrite !contains_char_app. simpl. now rewrite !orb_true_r.
  - assert (Hm : Re.match_dim key (String c s) = None).
    { unfold Re.match_dim.
      destruct (PyStr.strip_prefix _ (String c s)) as [r|] eqn:E;
        [| reflexivity].
      apply (strip_prefix_contains "034"%char) in E; [congruence |].
      rewrite !contains_char_app. simpl. now rewrite !orb_true_r. }
    cbn [Re.search_dim]. rewrite Hm. apply IH.
    cbn [PyStr.contains_char] in Hs. now apply orb_false_iff in Hs.
Qed.

(** X16.  The title injection reads the size of the markup from
    attributes written with double quotes.  For markup that holds no
    double quote at all - one that writes [width='550px'], with single
    quotes, say - no size is found: whatever the markup declares, the
    result declares a width of 1500 and a height of 1070, and the title
    is anchored at 750.0. *)
Theorem single_quoted_size_is_not_seen (svg title : string) :
  is_blank title = false ->
  PyStr.has_substring "<svg" svg = true ->
  PyStr.contains_char "034"%char svg = false ->
  _inject_svg_title env svg title 70
  = inr (svg_header 1500 1070 ++ title_element "750.0" "45.5" title
         ++ translated_group 70 (Re.sub_doctype (Re.sub_xml_decl svg))).
Proof.
  intros Hb Hsvg Hq. unfold _inject_svg_title.
  destruct (String.eqb_spec (PyStr.strip title) EmptyString) as [E|_].
  { apply strip_blank in E. congruence. }
  rewrite Hsvg, !(search_dim_unquoted _ _ Hq). cbn [negb dim_or ebind].
  change (repr_half env 1500) with (@inr exn string "750.0").
  change (repr_mul065 env 70) with (@inr exn string "45.5").
  cbn [ebind]. now rewrite wrapped_svg_parts.
Qed.

End UnseenDimensions.

Lemma single_quoted_size_is_not_seen_witness :
  _inject_svg_title Sample.env rdkit_panel "Panel 001" 70
  = inr (svg_header 1500 1070 ++ title_element "750.0" "45.5" "Panel 001"
         ++ translated_group 70
              (Re.sub_doctype (Re.sub_xml_decl rdkit_panel))).
Proof.
  exact (single_quoted_size_is_not_seen Sample.env rdkit_panel "Panel 001"
           eq_refl eq_refl eq_refl).
Defined.

(* ================================================================= *)
(** ** A batch from start to end *)

Section BatchRun.

Variable env : Env.

Hypothesis mkdir_ok : forall h p, fs_fault env h (Mkdir p) = None.
Hypothesis to_csv_ok : forall h p r, fs_fault env h (ToCsv p r) = None.

Variable captions : bool.

(** Captions are not asked for, or the file system takes every text. *)
Hypothesis captions_ok :
  captions = false \/ forall h p t, fs_fault env h (WriteText p t) = None.






End BatchRun.


(* ================================================================= *)
(** ** Where [transparent] counts, and the labels of [grid] *)

Section TransparentAndLabels.

Variable env : Env.

(** X18.  [render_molecule] looks at [transparent] for an .svg output
    only: for any other output path - a .png, or a path it refuses - two
    calls that differ in [transparent] only give the same result and the
    same world. *)
Theorem render_molecule_transparent_only_for_svg
  (smiles out : string) (size : Z * Z) (legend : string)
  (t1 t2 no_h : bool) (png_dpi : Z) (w : World) :
  String.eqb (PyStr.lower (suffix (parse out))) ".svg" = false ->
  render_molecule env smiles out size legend t1 no_h png_dpi w
  = render_molecule env smiles out size legend t2 no_h png_dpi w.
Proof.
  intros Hsvg. unfold render_molecule. cbv zeta.
  destruct (String.eqb (PyStr.strip smiles) EmptyString); [reflexivity |].
  unfold bind.
  destruct (_mol_from_smiles env (PyStr.strip smiles) no_h w)
    as [w1 [e|[mol|]]]; try reflexivity.
  destruct (fs_do env (Mkdir (to_str (parent (parse out)))) w1)
    as [w2 [e|u]]; [reflexivity |].
  unfold suffix_in, image_suffixes. cbn [existsb]. rewrite Hsvg.
  destruct (String.eqb (PyStr.lower (suffix (parse out))) ".png");
    reflexivity.
Qed.

Lemma grid_items_labels names queries :
  forall i items w w' items',
    grid_items env names i queries items w = (w', inr items') ->
    exists more ks,
      items' = (items ++ more)%list
      /\ StronglySorted lt ks
      /\ Forall (fun k => i <= k < i + List.length queries) ks
      /\ map fst more
         = map (fun k =>
                  grid_label names k
                    (PyStr.strip (nth (k - i) queries EmptyString))) ks.
Proof.
  induction queries as [|q rest IH]; intros i items w w' items' H.
  - simpl in H. injection H as <- <-. exists [], [].
    rewrite app_nil_r. repeat split; constructor.
  - simpl grid_items in H. cbv zeta in H. unfold bind at 1 in H.
    unfold try_except_class in H. unfold bind at 1 in H.
    destruct (to_smiles_cases env (PyStr.strip q) w)
      as (w1 & Hfs & [(s & src & cid & E & Hne) | (msg & E)]);
      rewrite E in H.
    + unfold ret at 1 in H. cbv beta iota in H.
      apply IH in H as (more & ks & -> & Hs & Hr & Hl).
      exists ((grid_label names i (PyStr.strip q), s) :: more), (i :: ks).
      split; [now rewrite <- app_assoc |]. split; [| split].
      * constructor; [exact Hs |].
        eapply Forall_impl; [| exact Hr]. simpl. intros k Hk. lia.
      * constructor; [simpl; lia |].
        eapply Forall_impl; [| exact Hr]. simpl. intros k Hk. lia.
      * cbn [map fst]. rewrite Nat.sub_diag. cbn [nth]. f_equal.
        rewrite Hl. apply map_ext_in. intros k Hk.
        rewrite Forall_forall in Hr. specialize (Hr k Hk).
        replace (k - i) with (S (k - S i)) by lia. reflexivity.
    + simpl in H.
      apply IH in H as (more & ks & -> & Hs & Hr & Hl).
      exists more, ks. split; [reflexivity |]. split; [exact Hs |]. split.
      * eapply Forall_impl; [| exact Hr]. simpl. intros k Hk. lia.
      * rewrite Hl. apply map_ext_in. intros k Hk.
        rewrite Forall_forall in Hr. specialize (Hr k Hk).
        replace (k - i) with (S (k - S i)) by lia. reflexivity.
Qed.

(** X19.  The labels of [grid].  The items the loop of [grid] collects
    are those of the queries it could turn into a structure string, in
    the order of the command line, and the label of an item is taken at
    the position of its query among all the queries, not among those
    that were kept: the name given at that position, stripped, when
    there is one and it is not blank, and the stripped query
    otherwise.  A query that is skipped uses up its name. *)
Theorem grid_labels_follow_positions
  (names : option (list string)) (queries : list string) (w w' : World)
  (items : list (string * string)) :
  grid_items env names 0 queries [] w = (w', inr items) ->
  exists ks,
    StronglySorted lt ks
    /\ Forall (fun k => k < List.length queries) ks
    /\ map fst items
       = map (fun k =>
                grid_label names k (PyStr.strip (nth k queries EmptyString)))
           ks.
Proof.
  intros H. apply grid_items_labels in H as (more & ks & -> & Hs & Hr & Hl).
  exists ks. split; [exact Hs |]. split.
  - eapply Forall_impl; [| exact Hr]. simpl. intros k Hk. lia.
  - simpl app. rewrite Hl. apply map_ext. intros k.
    now rewrite Nat.sub_0_r.
Qed.

End TransparentAndLabels.

Lemma render_molecule_transparent_only_for_svg_witness :
  render_molecule Sample.env "C=O" "out/x.PNG" (900, 700)%Z "" true false
    300 Sample.world
  = render_molecule Sample.env "C=O" "out/x.PNG" (900, 700)%Z "" false false
      300 Sample.world.
Proof.
  exact (render_molecule_transparent_only_for_svg Sample.env "C=O"
           "out/x.PNG" (900, 700)%Z "" true false false 300%Z Sample.world
           eq_refl).
Defined.

Lemma grid_labels_follow_positions_witness :
  exists w' items ks,
    grid_items Sample.env_offline (Some ["one"; "two"; "  "]) 0
      ["aspirin"; "C=O"; " CC=O "] [] Sample.world = (w', inr items)
    /\ map fst items = ["two"; "CC=O"]
    /\ StronglySorted lt ks
    /\ map fst items
       = map (fun k =>
                grid_label (Some ["one"; "two"; "  "]) k
                  (PyStr.strip (nth k ["aspirin"; "C=O"; " CC=O "]
                                  EmptyString))) ks.
Proof.
  eassert (E : grid_items Sample.env_offline (Some ["one"; "two"; "  "]) 0
                 ["aspirin"; "C=O"; " CC=O "] [] Sample.world
               = (_, inr _)) by (vm_compute; reflexivity).
  destruct (grid_labels_follow_positions Sample.env_offline
              (Some ["one"; "two"; "  "]) ["aspirin"; "C=O"; " CC=O "]
              Sample.world _ _ E) as (ks & Hs & _ & Hl).
  do 2 eexists. exists ks. split; [exact E |].
  split; [reflexivity |]. split; [exact Hs | exact Hl].
Defined.

(* ================================================================= *)
(** ** A batch that stays off the network *)

(** The calls that go to PubChem. *)
Definition is_lookup (c : TkCall) : bool :=
  match c with
  | CallGetCompounds _ _ => true
  | _ => false
  end.

Definition lookups (calls : list TkCall) : list TkCall :=
  filter is_lookup calls.

(** A computation that asks nothing of PubChem. *)
Definition quiet {A} (m : M A) : Prop :=
  forall w, lookups (tk_log (fst (m w))) = lookups (tk_log w).

Section Quiet.

Lemma quiet_ret {A} (a : A) : quiet (ret a).
Proof. intros w. reflexivity. Qed.

Lemma quiet_raise {A} (e : exn) : quiet (@raise A e).
Proof. intros w. reflexivity. Qed.

Lemma quiet_lift {A} (r : exn + A) : quiet (lift r).
Proof. intros w. reflexivity. Qed.

Lemma quiet_fs_do env op : quiet (fs_do env op).
Proof. intros w. reflexivity. Qed.

Lemma quiet_tk_call c : is_lookup c = false -> quiet (tk_call c).
Proof.
  intros Hc w. unfold tk_call, lookups. simpl.
  rewrite filter_app. simpl. rewrite Hc. apply app_nil_r.
Qed.

Lemma quiet_bind {A B} (m : M A) (k : A -> M B) :
  quiet m -> (forall a, quiet (k a)) -> quiet (bind m k).
Proof.
  intros Hm Hk w. unfold bind. specialize (Hm w).
  destruct (m w) as [w1 [e|a]]; simpl in *; [exact Hm |].
  now rewrite Hk.
Qed.

Lemma quiet_try {A} (m : M A) (h : exn -> M A) :
  quiet m -> (forall e, quiet (h e)) -> quiet (try_except m h).
Proof.
  intros Hm Hh w. unfold try_except. specialize (Hm w).
  destruct (m w) as [w1 [e|a]]; simpl in *; [| exact Hm].
  now rewrite Hh.
Qed.

Create HintDb quiet.

#[local] Hint Resolve quiet_ret quiet_raise quiet_lift quiet_fs_do : quiet.

Ltac quiet_tac :=
  repeat (intros; cbv beta zeta;
          match goal with
          | |- quiet (bind _ _) => apply quiet_bind
          | |- quiet (try_except _ _) => apply quiet_try
          | |- quiet (tk_call _) => apply quiet_tk_call; reflexivity
          | |- quiet (if ?b then _ else _) => destruct b
          | |- quiet (match ?x with _ => _ end) => destruct x
          | |- quiet _ => solve [auto with quiet]
          end).

Variable env : Env.

Lemma quiet_mol_from_smiles smiles no_h :
  quiet (_mol_from_smiles env smiles no_h).
Proof. unfold _mol_from_smiles. quiet_tac. Qed.

#[local] Hint Resolve quiet_mol_from_smiles : quiet.

Lemma quiet_render_molecule smiles out size legend transparent no_h png_dpi :
  quiet (render_molecule env smiles out size legend transparent no_h png_dpi).
Proof. unfold render_molecule, save_with_dpi. quiet_tac. Qed.

Lemma quiet_grid_mols smiles_list no_h :
  quiet (grid_mols env smiles_list no_h).
Proof.
  induction smiles_list as [|s rest IH]; simpl; quiet_tac.
Qed.

#[local] Hint Resolve quiet_render_molecule quiet_grid_mols : quiet.

Lemma quiet_render_grid smiles_list out legends grid size transparent no_h
  png_dpi title :
  quiet (render_grid env smiles_list out legends grid size transparent no_h
           png_dpi title).
Proof. unfold render_grid, save_with_dpi. quiet_tac. Qed.

Lemma quiet_write_caption path title legends :
  quiet (_write_caption env path title legends).
Proof. unfold _write_caption. quiet_tac. Qed.

#[local] Hint Resolve quiet_render_grid quiet_write_caption : quiet.

Lemma quiet_batch_panel_loop outp fmt no_h rows cols prefix captions items
  capacity starts :
  forall panel_index,
    quiet (batch_panel_loop env outp fmt no_h rows cols prefix captions items
             capacity starts panel_index).
Proof.
  induction starts as [|start rest IH]; intros panel_index; simpl.
  - apply quiet_ret.
  - apply quiet_bind; [| intros _; apply IH].
    unfold batch_panel. quiet_tac.
Qed.

Lemma quiet_batch_panels outp fmt no_h make_panels rows cols prefix captions
  order_by rendered :
  quiet (batch_panels env outp fmt no_h make_panels rows cols prefix captions
           order_by rendered).
Proof.
  unfold batch_panels.
  destruct make_panels; [| apply quiet_ret].
  destruct rendered; [apply quiet_ret |].
  apply quiet_batch_panel_loop.
Qed.

(** A row whose structure cell is not blank. *)
Definition has_structure (smiles_col : string) (row : list (string * string))
  : Prop :=
  is_blank (row_get row smiles_col) = false.

Lemma quiet_batch_row smiles_col name_col has_name outp fmt no_h i row :
  has_structure smiles_col row ->
  quiet (batch_row env smiles_col name_col true has_name outp fmt no_h i row).
Proof.
  unfold has_structure. intros Hs.
  assert (Hn : nonempty (PyStr.strip (row_get row smiles_col)) = true).
  { unfold nonempty.
    destruct (String.eqb_spec (PyStr.strip (row_get row smiles_col))
                EmptyString) as [E|]; [| reflexivity].
    apply strip_blank in E. congruence. }
  unfold batch_row. cbv zeta. rewrite Hn. cbn [negb]. quiet_tac.
Qed.

Lemma quiet_batch_rows smiles_col name_col has_name outp fmt no_h rows :
  Forall (has_structure smiles_col) rows ->
  forall i report rendered,
    quiet (batch_rows env smiles_col name_col true has_name outp fmt no_h i
             rows report rendered).
Proof.
  induction 1 as [|row rest Hrow Hrest IH]; intros i report rendered; simpl.
  - apply quiet_ret.
  - apply quiet_bind; [now apply quiet_batch_row |].
    intros [entry item]. apply IH.
Qed.

(** X20.  A table that gives a structure in every row keeps [batch] off
    the network: when the structure column is there and no row has a
    blank cell in it, nothing is asked of PubChem - not for the rows,
    whether or not they also carry a name, and not for the panels -
    however the run ends. *)
Theorem batch_with_structures_asks_no_lookup
  (df : DataFrame) (smiles_col name_col out_dir fmt : string)
  (no_h make_panels : bool) (panel_grid prefix : string) (captions : bool)
  (order_by : string) (w : World) :
  col_in smiles_col (columns df) = true ->
  Forall (has_structure smiles_col) (df_rows df) ->
  lookups (tk_log (fst (batch env df smiles_col name_col out_dir fmt no_h
                          make_panels panel_grid prefix captions order_by
                          w)))
  = lookups (tk_log w).
Proof.
  intros Hcol Hrows. revert w.
  change (quiet (batch env df smiles_col name_col out_dir fmt no_h
                   make_panels panel_grid prefix captions order_by)).
  unfold batch. cbv zeta. rewrite Hcol. cbn [negb andb].
  apply quiet_bind; [apply quiet_fs_do | intros _].
  apply quiet_bind; [apply quiet_lift | intros [rows cols]].
  apply quiet_bind; [now apply quiet_batch_rows | intros [report rendered]].
  apply quiet_bind; [apply quiet_fs_do | intros _].
  apply quiet_batch_panels.
Qed.

End Quiet.

(** A PubChem that would answer for any name. *)
Definition pubchem_any (q ns : string) : exn + list Compound :=
  inr [mkCompound (Some "CCO") None (Some 702%Z)].

Lemma batch_with_structures_asks_no_lookup_witness :
  lookups (tk_log (fst (batch (Sample.with_get_compounds Sample.env
                                 pubchem_any)
                          twin_table "smiles" "name" "molpic_out" "svg"
                          false true "2x3" "Panel" true "name"
                          Sample.world)))
  = [].
Proof.
  apply (batch_with_structures_asks_no_lookup
           (Sample.with_get_compounds Sample.env pubchem_any) twin_table
           "smiles" "name" "molpic_out" "svg" false true "2x3" "Panel" true
           "name" Sample.world); [reflexivity |].
  repeat constructor.
Defined.

(* ================================================================= *)
(** ** The one exception that leaves the renderers *)

Section RendererRaises.

Variable env : Env.

Lemma render_molecule_raises
  smiles out size legend transparent no_h png_dpi w w' e :
  render_molecule env smiles out size legend transparent no_h png_dpi w
  = (w', inl e) ->
  fs_fault env (fs_log w) (Mkdir (to_str (parent (parse out)))) = Some e
  /\ fs_log w'
     = (fs_log w
        ++ [mkFsEvent (Mkdir (to_str (parent (parse out)))) (Some e)])%list.
Proof.
  destruct (String.eqb_spec (PyStr.strip smiles) EmptyString) as [E|Hs].
  - unfold render_molecule. rewrite E. simpl. discriminate.
  - rewrite (render_molecule_unfold _ _ _ _ _ _ _ _ _ Hs). cbv zeta.
    destruct (MolFromSmiles env (PyStr.strip smiles)) as [mol|];
      [| discriminate].
    intros H. unfold render_parsed, save_with_dpi in H.
    unfold bind, ret, raise, lift, try_except, tk_call, fs_do in H.
    simpl in H.
    repeat break_match_in H; inversion H; subst; clear H; simpl;
      split; congruence.
Qed.

Lemma render_grid_raises
  smiles_list out legends grid size transparent no_h png_dpi title w w' e :
  render_grid env smiles_list out legends grid size transparent no_h png_dpi
    title w = (w', inl e) ->
  fs_fault env (fs_log w) (Mkdir (to_str (parent (parse out)))) = Some e
  /\ fs_log w'
     = (fs_log w
        ++ [mkFsEvent (Mkdir (to_str (parent (parse out)))) (Some e)])%list.
Proof.
  destruct smiles_list as [|s0 rest]; [discriminate |].
  destruct grid as [rows cols]. intros H.
  unfold render_grid, save_with_dpi in H.
  unfold bind at 1 in H. rewrite grid_mols_run in H.
  unfold bind, ret, raise, lift, try_except, tk_call, fs_do in H.
  simpl in H.
  repeat break_match_in H; inversion H; subst; clear H; simpl;
    split; congruence.
Qed.

(** X21.  The renderers catch what goes wrong while they draw and save,
    and report it in their result; the one exception that leaves
    [render_molecule] or [render_grid] is the one raised when the parent
    directory of the output cannot be created, which happens outside
    their [try].  When a renderer raises, that failed creation is the
    only thing it asked of the file system. *)
Theorem renderers_raise_only_for_the_directory :
  (forall smiles out size legend transparent no_h png_dpi w w' e,
      render_molecule env smiles out size legend transparent no_h png_dpi w
      = (w', inl e) ->
      fs_fault env (fs_log w) (Mkdir (to_str (parent (parse out)))) = Some e
      /\ fs_log w'
         = (fs_log w
            ++ [mkFsEvent (Mkdir (to_str (parent (parse out)))) (Some e)])%list)
  /\ (forall smiles_list out legends grid size transparent no_h png_dpi
             title w w' e,
         render_grid env smiles_list out legends grid size transparent no_h
           png_dpi title w = (w', inl e) ->
         fs_fault env (fs_log w) (Mkdir (to_str (parent (parse out))))
         = Some e
         /\ fs_log w'
            = (fs_log w
               ++ [mkFsEvent (Mkdir (to_str (parent (parse out))))
                     (Some e)])%list).
Proof.
  split.
  - intros. eapply render_molecule_raises; eassumption.
  - intros. eapply render_grid_raises; eassumption.
Qed.

End RendererRaises.

Lemma renderers_raise_only_for_the_directory_witness :
  exists w' e,
    render_grid Sample.env_obstructed ["C=O"] "blocked/panel.svg" None
      (2, 3)%Z (550, 450)%Z true false 300 "" Sample.world = (w', inl e)
    /\ fs_log w' = [mkFsEvent (Mkdir "blocked") (Some e)].
Proof.
  eassert (E : render_grid Sample.env_obstructed ["C=O"] "blocked/panel.svg"
                 None (2, 3)%Z (550, 450)%Z true false 300 "" Sample.world
               = (_, inl _)) by (vm_compute; reflexivity).
  destruct (proj2 (renderers_raise_only_for_the_directory
                     Sample.env_obstructed) _ _ _ _ _ _ _ _ _ _ _ _ E)
    as [_ Hlog].
  do 2 eexists. split; [exact E | exact Hlog].
Defined.
